(** * aq-data: the field-derivation engine of [pull.py]

    A shallow embedding of the [DAMPAqData] class of [src/pull.py]: the
    record filter ([collectOperations]), the row accumulator
    ([createEmptyDict], [appendData], [collectData]), the per-field
    derivation ([findData]) and the runtime computation ([findRuntime]).

    Python values are modelled by [pyval], Python floats by the kernel's
    binary64 numbers, exceptions by the [result] type, the instance
    dictionary [op_data] by a [gmap] from field names to value lists. *)

From Stdlib Require Import ZArith List String Ascii Bool Lia Floats.
From stdpp Require Import gmap strings list fin_maps.

Local Open Scope string_scope.
Local Open Scope list_scope.
Local Open Scope Z_scope.

(** ** Exceptions and fallible computations *)

Inductive exn : Type :=
  | KeyError
  | IndexError
  | TypeError
  | ValueError
  | NameError
  | AttributeError
  | ZeroDivisionError
  | OverflowError.

Inductive result (A : Type) : Type :=
  | Ok (a : A)
  | Raise (e : exn).

Arguments Ok {A} a.
Arguments Raise {A} e.

Definition bind {A B : Type} (m : result A) (k : A -> result B) : result B :=
  match m with
  | Ok a => k a
  | Raise e => Raise e
  end.

Notation "x <- m ;; k" := (bind m (fun x => k))
  (at level 100, m at next level, right associativity).

(** [try: body / except: pass] around a block that computes a new content
    for a local variable whose content is [old] when the block is entered.
    In the two blocks of [findData] every point that can raise comes before
    the first assignment, so the variable still holds [old] in the handler. *)
Definition try_except_pass {A : Type} (old : A) (body : result A) : result A :=
  match body with
  | Ok a => Ok a
  | Raise _ => Ok old
  end.

(** ** Python values *)

Inductive pyval : Type :=
  | VNone
  | VBool (b : bool)
  | VInt (z : Z)
  | VFloat (f : float)
  | VStr (s : string).

(** [bool(v)] *)
Definition truthy (v : pyval) : bool :=
  match v with
  | VNone => false
  | VBool b => b
  | VInt z => negb (z =? 0)
  | VFloat f => negb (PrimFloat.eqb f 0%float)
  | VStr s => negb (String.eqb s "")
  end.

(** [v == s] for a string literal [s] *)
Definition eq_str (v : pyval) (s : string) : bool :=
  match v with
  | VStr t => String.eqb t s
  | _ => false
  end.

(** A number that compares equal to [0] ([0], [0.0], [-0.0], [False]). *)
Definition is_zero (v : pyval) : bool :=
  match v with
  | VBool b => negb b
  | VInt z => z =? 0
  | VFloat f => PrimFloat.eqb f 0%float
  | _ => false
  end.

(** *** Numbers *)

(** The binary64 number nearest to an integer (ties to even), infinite when
    the integer is out of range. *)
Definition Z2float (z : Z) : float :=
  SF2Prim (binary_normalize prec emax z 0 false).

(** [float(z)] for a Python [int]. *)
Definition float_of_int (z : Z) : result float :=
  let f := Z2float z in
  if PrimFloat.is_infinity f then Raise OverflowError else Ok f.

Inductive number : Type :=
  | NInt (z : Z)
  | NFloat (f : float).

(** [bool] is a subclass of [int]. *)
Definition as_number (v : pyval) : option number :=
  match v with
  | VBool b => Some (NInt (if b then 1 else 0))
  | VInt z => Some (NInt z)
  | VFloat f => Some (NFloat f)
  | _ => None
  end.

Definition to_float (n : number) : result float :=
  match n with
  | NInt z => float_of_int z
  | NFloat f => Ok f
  end.

(** [a - b] *)
Definition py_sub (a b : pyval) : result pyval :=
  match as_number a, as_number b with
  | Some (NInt x), Some (NInt y) => Ok (VInt (x - y))
  | Some x, Some y =>
      fx <- to_float x ;;
      fy <- to_float y ;;
      Ok (VFloat (PrimFloat.sub fx fy))
  | _, _ => Raise TypeError
  end.

Fixpoint str_repeat (s : string) (n : nat) : string :=
  match n with
  | O => ""
  | S n' => String.append s (str_repeat s n')
  end.

(** [a * b]: numbers multiply, a string times an integer is repeated. *)
Definition py_mul (a b : pyval) : result pyval :=
  match as_number a, as_number b with
  | Some (NInt x), Some (NInt y) => Ok (VInt (x * y))
  | Some x, Some y =>
      fx <- to_float x ;;
      fy <- to_float y ;;
      Ok (VFloat (PrimFloat.mul fx fy))
  | Some (NInt x), None =>
      match b with
      | VStr s => Ok (VStr (str_repeat s (Z.to_nat x)))
      | _ => Raise TypeError
      end
  | None, Some (NInt y) =>
      match a with
      | VStr s => Ok (VStr (str_repeat s (Z.to_nat y)))
      | _ => Raise TypeError
      end
  | _, _ => Raise TypeError
  end.

(** The exact quotient of two integers, rounded once to binary64. *)
Definition int_true_divide (x y : Z) : result float :=
  let sf (z : Z) : spec_float :=
    match z with
    | Z0 => S754_zero false
    | Zpos p => S754_finite false p 0
    | Zneg p => S754_finite true p 0
    end in
  let f := SF2Prim (SFdiv prec emax (sf x) (sf y)) in
  if PrimFloat.is_infinity f then Raise OverflowError else Ok f.

(** [a / b] (true division) *)
Definition py_truediv (a b : pyval) : result pyval :=
  match as_number a, as_number b with
  | Some x, Some y =>
      if is_zero b then Raise ZeroDivisionError
      else
        match x, y with
        | NInt m, NInt n => f <- int_true_divide m n ;; Ok (VFloat f)
        | _, _ =>
            fx <- to_float x ;;
            fy <- to_float y ;;
            Ok (VFloat (PrimFloat.div fx fy))
        end
  | _, _ => Raise TypeError
  end.

(** ** JSON documents, as [json.loads] returns them *)

#[local] Unset Elimination Schemes.

Inductive json : Type :=
  | JNull
  | JBool (b : bool)
  | JInt (z : Z)
  | JFloat (f : float)
  | JStr (s : string)
  | JArr (items : list json)
  | JObj (members : list (string * json)).

#[local] Set Elimination Schemes.

(** [l[i]] on a Python list: a negative index counts from the end. *)
Definition list_index {A : Type} (l : list A) (i : Z) : result A :=
  let n := Z.of_nat (length l) in
  let j := if i <? 0 then i + n else i in
  if (j <? 0) || (n <=? j) then Raise IndexError
  else
    match nth_error l (Z.to_nat j) with
    | Some x => Ok x
    | None => Raise IndexError
    end.

(** [d[k]] on a Python dict with string keys (each key occurs once). *)
Fixpoint dict_get {A : Type} (d : list (string * A)) (k : string) : result A :=
  match d with
  | [] => Raise KeyError
  | (k', v) :: d' => if String.eqb k' k then Ok v else dict_get d' k
  end.

(** [j[i]] for an integer [i]. *)
Definition subscript_int (j : json) (i : Z) : result json :=
  match j with
  | JArr items => list_index items i
  | JObj _ => Raise KeyError
  | JStr s =>
      c <- list_index (list_ascii_of_string s) i ;;
      Ok (JStr (String c EmptyString))
  | _ => Raise TypeError
  end.

(** [j[k]] for a string [k]. *)
Definition subscript_str (j : json) (k : string) : result json :=
  match j with
  | JObj members => dict_get members k
  | _ => Raise TypeError
  end.

(** [int(f)] for a float: truncation towards zero. *)
Definition int_of_float (f : float) : result Z :=
  match Prim2SF f with
  | S754_nan => Raise ValueError
  | S754_infinity _ => Raise OverflowError
  | S754_zero _ => Ok 0
  | S754_finite s m e =>
      let a := if 0 <=? e then Z.shiftl (Zpos m) e else Z.shiftr (Zpos m) (- e) in
      Ok (if s then - a else a)
  end.

(** [int(j)] for a decoded JSON value that is not a string (in
    [findRuntime] strings take the other branch of the type test). *)
Definition py_int (j : json) : result Z :=
  match j with
  | JBool b => Ok (if b then 1 else 0)
  | JInt z => Ok z
  | JFloat f => int_of_float f
  | JStr _ => Raise ValueError
  | _ => Raise TypeError
  end.

(** ** Dates and times *)

Module datetime.

Record t : Type := mk {
  year : Z; month : Z; day : Z;
  hour : Z; minute : Z; second : Z
}.

Definition is_leap (y : Z) : bool :=
  (y mod 4 =? 0) && (negb (y mod 100 =? 0) || (y mod 400 =? 0)).

Definition days_in_month (y m : Z) : Z :=
  if m =? 2 then (if is_leap y then 29 else 28)
  else if (m =? 4) || (m =? 6) || (m =? 9) || (m =? 11) then 30
  else 31.

Definition days_before_year (y : Z) : Z :=
  let p := y - 1 in
  p * 365 + p / 4 - p / 100 + p / 400.

Definition days_before_month (y m : Z) : Z :=
  nth (Z.to_nat m) [0; 0; 31; 59; 90; 120; 151; 181; 212; 243; 273; 304; 334] 0
  + (if (2 <? m) && is_leap y then 1 else 0).

Definition toordinal (d : t) : Z :=
  days_before_year (year d) + days_before_month (year d) (month d) + day d.

(** The range checks of the constructor. *)
Definition valid (d : t) : bool :=
  (1 <=? year d) && (year d <=? 9999)
  && (1 <=? month d) && (month d <=? 12)
  && (1 <=? day d) && (day d <=? days_in_month (year d) (month d))
  && (0 <=? hour d) && (hour d <=? 23)
  && (0 <=? minute d) && (minute d <=? 59)
  && (0 <=? second d) && (second d <=? 59).

(** A time zone aware value: the fields, and the zone's offset from UTC in
    seconds. *)
Record aware : Type := mk_aware { fields : t; utcoffset : Z }.

End datetime.

Module timedelta.

(** Normalised: [0 <= seconds < 86400]. *)
Record t : Type := mk { days : Z; seconds : Z }.

Definition make (d s : Z) : t :=
  {| days := d + s / 86400; seconds := s mod 86400 |}.

End timedelta.

(** [timezone('UTC').localize(d)]: attaches UTC to a naive value. *)
Definition localize_utc (d : datetime.t) : datetime.aware :=
  {| datetime.fields := d; datetime.utcoffset := 0 |}.

Definition seconds_of_day (d : datetime.t) : Z :=
  datetime.second d + datetime.minute d * 60 + datetime.hour d * 3600.

(** [a - b] on aware values. *)
Definition datetime_sub (a b : datetime.aware) : timedelta.t :=
  let fa := datetime.fields a in
  let fb := datetime.fields b in
  timedelta.make
    (datetime.toordinal fa - datetime.toordinal fb)
    ((seconds_of_day fa - datetime.utcoffset a)
     - (seconds_of_day fb - datetime.utcoffset b)).

(** ** [datetime.strptime(s, '%Y-%m-%dT%H:%M:%S+00:00')]

    The library turns the format into a regular expression, matched without
    regard to letter case at the start of the text:
    [%Y] is four digits, [%m] is [1[0-2]|0[1-9]|[1-9]],
    [%d] is [3[0-1]|[1-2]\d|0[1-9]|[1-9]| [1-9]], [%H] is [2[0-3]|[0-1]\d|\d],
    [%M] is [[0-5]\d|\d], [%S] is [6[0-1]|[0-5]\d|\d]; every other character of
    the format stands for itself. Text left after the match, a text that does
    not match, and fields that are no calendar date or time of day raise
    [ValueError]. The model covers ASCII text. *)

Module strptime.

(** A backtracking matcher: the ways to match a prefix, in the order the
    regular expression tries them, each with the text that is left. *)
Definition parser (A : Type) : Type := string -> list (A * string).

Definition pure {A : Type} (a : A) : parser A := fun s => [(a, s)].

Definition seq {A B : Type} (p : parser A) (k : A -> parser B) : parser B :=
  fun s => concat (List.map (fun '(a, rest) => k a rest) (p s)).

Definition alt {A : Type} (p q : parser A) : parser A :=
  fun s => (p s ++ q s)%list.

Definition digit_of (c : ascii) : option Z :=
  let n := Z.of_N (N_of_ascii c) in
  if (48 <=? n) && (n <=? 57) then Some (n - 48) else None.

(** One decimal digit between [lo] and [hi]. *)
Definition digit (lo hi : Z) : parser Z :=
  fun s =>
    match s with
    | String c rest =>
        match digit_of c with
        | Some d => if (lo <=? d) && (d <=? hi) then [(d, rest)] else []
        | None => []
        end
    | EmptyString => []
    end.

(** Two digits, the first in [lo1..hi1], the second in [lo2..hi2]. *)
Definition digits2 (lo1 hi1 lo2 hi2 : Z) : parser Z :=
  seq (digit lo1 hi1) (fun a => seq (digit lo2 hi2) (fun b => pure (10 * a + b))).

Definition lower (c : ascii) : ascii :=
  let n := N_of_ascii c in
  if ((65 <=? n) && (n <=? 90))%N then ascii_of_N (n + 32) else c.

(** One literal character, letters in either case. *)
Definition lit (c : ascii) : parser unit :=
  fun s =>
    match s with
    | String c' rest => if Ascii.eqb (lower c') (lower c) then [(tt, rest)] else []
    | EmptyString => []
    end.

Fixpoint lits (l : list ascii) : parser unit :=
  match l with
  | [] => pure tt
  | c :: l' => seq (lit c) (fun _ => lits l')
  end.

Definition dir_Y : parser Z :=
  seq (digit 0 9) (fun a => seq (digit 0 9) (fun b =>
  seq (digit 0 9) (fun c => seq (digit 0 9) (fun d =>
  pure (1000 * a + 100 * b + 10 * c + d))))).

Definition dir_m : parser Z :=
  alt (digits2 1 1 0 2) (alt (digits2 0 0 1 9) (digit 1 9)).

Definition dir_d : parser Z :=
  alt (digits2 3 3 0 1) (alt (digits2 1 2 0 9) (alt (digits2 0 0 1 9)
  (alt (digit 1 9) (seq (lit " "%char) (fun _ => digit 1 9))))).

Definition dir_H : parser Z :=
  alt (digits2 2 2 0 3) (alt (digits2 0 1 0 9) (digit 0 9)).

Definition dir_M : parser Z :=
  alt (digits2 0 5 0 9) (digit 0 9).

Definition dir_S : parser Z :=
  alt (digits2 6 6 0 1) (alt (digits2 0 5 0 9) (digit 0 9)).

Definition format : parser datetime.t :=
  seq dir_Y (fun year => seq (lit "-"%char) (fun _ =>
  seq dir_m (fun month => seq (lit "-"%char) (fun _ =>
  seq dir_d (fun day => seq (lit "T"%char) (fun _ =>
  seq dir_H (fun hour => seq (lit ":"%char) (fun _ =>
  seq dir_M (fun minute => seq (lit ":"%char) (fun _ =>
  seq dir_S (fun second => seq (lits (list_ascii_of_string "+00:00")) (fun _ =>
  pure (datetime.mk year month day hour minute second))))))))))))).

Definition parse (s : string) : result datetime.t :=
  match format s with
  | [] => Raise ValueError
  | (dt, rest) :: _ =>
      if String.eqb rest "" then
        if datetime.valid dt then Ok dt else Raise ValueError
      else Raise ValueError
  end.

End strptime.

(** ** The records of the Aquarium store, as the code reads them *)

Module DataAssociation.
Record t : Type := mk { key : string; value : pyval }.
End DataAssociation.

Module Item.
(** [data_associations]: [None] and the empty list are both false and are
    both the empty list here. *)
Record t : Type := mk { data_associations : list DataAssociation.t }.
End Item.

Module FieldValue.
Record t : Type := mk { item : option Item.t }.
End FieldValue.

Module Job.
(** [user_id] is an integer or [None]; [operations] holds the identifiers
    of the operations of the job; [state] is what [json.loads] makes of
    the job's state text (it raises on text that is not JSON). *)
Record t : Type := mk {
  user_id : option Z;
  operations : list Z;
  state : result json
}.
End Job.

Module Operation.
Record t : Type := mk {
  id : Z;
  created_at : string;
  status : string;
  user_id : Z;
  operation_type_name : string;
  jobs : list Job.t;
  data_associations : list DataAssociation.t;
  outputs : list FieldValue.t
}.
End Operation.

Module OperationType.
Record t : Type := mk {
  id : Z;
  name : string;
  deployed : bool;
  operations : list Operation.t
}.
End OperationType.

Module User.
Record t : Type := mk { id : Z; name : string }.
End User.

Module AqSession.

Record t : Type := mk {
  users : list User.t;
  operation_types : list OperationType.t
}.

(** [session.User.find(id)] *)
Definition User_find (s : t) (i : Z) : option User.t :=
  List.find (fun u => User.id u =? i) (users s).

(** [session.User.find_by_name(name)] *)
Definition User_find_by_name (s : t) (n : string) : option User.t :=
  List.find (fun u => String.eqb (User.name u) n) (users s).

(** [session.OperationType.find(id)] *)
Definition OperationType_find (s : t) (i : Z) : option OperationType.t :=
  List.find (fun ot => OperationType.id ot =? i) (operation_types s).

(** [session.OperationType.where({"name": n, "deployed": True})] *)
Definition OperationType_where (s : t) (n : string) : list OperationType.t :=
  List.filter
    (fun ot => String.eqb (OperationType.name ot) n && OperationType.deployed ot)
    (operation_types s).

End AqSession.

(** Attribute access on the result of a lookup that may be [None]. *)
Definition attr {A B : Type} (o : option A) (f : A -> B) : result B :=
  match o with
  | Some a => Ok (f a)
  | None => Raise AttributeError
  end.

(** [l.index(x)] on a list of strings. *)
Fixpoint str_index (l : list string) (x : string) : result Z :=
  match l with
  | [] => Raise ValueError
  | y :: l' => if String.eqb y x then Ok 0 else i <- str_index l' x ;; Ok (i + 1)
  end.

(** [x in l] on a list of strings. *)
Definition str_in (x : string) (l : list string) : bool :=
  existsb (String.eqb x) l.

(** A [for] loop whose body may raise. *)
Fixpoint for_each {A S : Type} (l : list A) (body : S -> A -> result S) (s : S)
  : result S :=
  match l with
  | [] => Ok s
  | x :: l' => s' <- body s x ;; for_each l' body s'
  end.

(** ** The class [DAMPAqData] *)

Module DAMPAqData.

(** The instance variables, the text printed so far ([stdout]) and the
    tables handed to the spreadsheet, newest last ([written]). *)
Record t : Type := mk {
  USERS : list string;
  PROTOCOLS : list string;
  USER_KEYS : list Z;
  PROTOCOL_KEYS : list Z;
  HANDS_OFF_TIME : list pyval;
  OUTPUTS : list string;
  COSTS : list pyval;
  ERRORS : list string;
  session : AqSession.t;
  op_data : gmap string (list pyval);
  stdout : list string;
  written : list (string * gmap string (list pyval))
}.

Definition set_op_data (self : t) (d : gmap string (list pyval)) : t :=
  mk (USERS self) (PROTOCOLS self) (USER_KEYS self) (PROTOCOL_KEYS self)
     (HANDS_OFF_TIME self) (OUTPUTS self) (COSTS self) (ERRORS self)
     (session self) d (stdout self) (written self).

Definition set_keys (self : t) (uk pk : list Z) : t :=
  mk (USERS self) (PROTOCOLS self) uk pk
     (HANDS_OFF_TIME self) (OUTPUTS self) (COSTS self) (ERRORS self)
     (session self) (op_data self) (stdout self) (written self).

Definition print (self : t) (line : string) : t :=
  mk (USERS self) (PROTOCOLS self) (USER_KEYS self) (PROTOCOL_KEYS self)
     (HANDS_OFF_TIME self) (OUTPUTS self) (COSTS self) (ERRORS self)
     (session self) (op_data self) (stdout self ++ [line]) (written self).

Definition write (self : t) (protocol : string) : t :=
  mk (USERS self) (PROTOCOLS self) (USER_KEYS self) (PROTOCOL_KEYS self)
     (HANDS_OFF_TIME self) (OUTPUTS self) (COSTS self) (ERRORS self)
     (session self) (op_data self) (stdout self)
     (written self ++ [(protocol, op_data self)]).

End DAMPAqData.

Import DAMPAqData.

(** [writeData]: the spreadsheet is outside the model; the call is recorded
    with the table it is given. *)
Definition writeData (self : DAMPAqData.t) (protocol : string) : DAMPAqData.t :=
  DAMPAqData.write self protocol.

(** The filter of [collectOperations]:
    [op.user_id in self.USER_KEYS and op.jobs and op.jobs[-1].user_id] *)
Definition is_collected (self : DAMPAqData.t) (op : Operation.t) : result bool :=
  if existsb (Z.eqb (Operation.user_id op)) (USER_KEYS self) then
    match Operation.jobs op with
    | [] => Ok false
    | _ :: _ =>
        job <- list_index (Operation.jobs op) (-1) ;;
        Ok (match Job.user_id job with
            | Some u => negb (u =? 0)
            | None => false
            end)
    end
  else Ok false.

(** The elements a generator [(x for x in l if test(x))] yields. *)
Fixpoint generate {A : Type} (test : A -> result bool) (l : list A)
  : result (list A) :=
  match l with
  | [] => Ok []
  | x :: l' =>
      b <- test x ;;
      rest <- generate test l' ;;
      Ok (if b then x :: rest else rest)
  end.

Definition collectOperations (self : DAMPAqData.t) (protocol_key : Z) (time : Z)
  : result (list Operation.t) :=
  ops <- attr (AqSession.OperationType_find (session self) protocol_key)
              OperationType.operations ;;
  generate (is_collected self) ops.

Definition createEmptyDict (self : DAMPAqData.t) : DAMPAqData.t :=
  set_op_data self (list_to_map (List.map (fun output => (output, [])) (OUTPUTS self))).

Definition findKeys (self : DAMPAqData.t) : result DAMPAqData.t :=
  uk <- for_each (USERS self)
          (fun acc user =>
             i <- attr (AqSession.User_find_by_name (session self) user) User.id ;;
             Ok (acc ++ [i]))
          [] ;;
  pk <- for_each (PROTOCOLS self)
          (fun acc protocol =>
             ot <- list_index (AqSession.OperationType_where (session self) protocol) (-1) ;;
             Ok (acc ++ [OperationType.id ot]))
          [] ;;
  Ok (set_keys self uk pk).

Definition appendData (self : DAMPAqData.t) (key : string) (value : pyval)
  : result DAMPAqData.t :=
  match op_data self !! key with
  | Some l => Ok (set_op_data self (<[key := l ++ [value]]> (op_data self)))
  | None => Raise KeyError
  end.

(** [self.op_data[field][-1]] *)
Definition row_so_far (self : DAMPAqData.t) (field : string) : result pyval :=
  match op_data self !! field with
  | Some l => list_index l (-1)
  | None => Raise KeyError
  end.

(** ** [findRuntime] *)

(** One time stamp of the trace made into an aware value: a [str] is parsed
    and localised; for anything else the code evaluates [int(...)] and then
    the name [utc_tz], which nothing in the module defines. *)
Definition to_utc (stamp : json) : result datetime.aware :=
  match stamp with
  | JStr s => d <- strptime.parse s ;; Ok (localize_utc d)
  | _ => _ <- py_int stamp ;; Raise NameError
  end.

(** The [try] block: [time_json[0]['time']] and [time_json[-2]['time']]. *)
Definition trace_stamps (time_json : json) : result (json * json) :=
  first <- subscript_int time_json 0 ;;
  start_time <- subscript_str first "time" ;;
  before_last <- subscript_int time_json (-2) ;;
  end_time <- subscript_str before_last "time" ;;
  Ok (start_time, end_time).

(** [total_time.days*1440 + total_time.seconds/60]. The days lie within
    the span of the calendar and the seconds below 86400, so both integers
    convert to binary64 without rounding or overflow, the true division of
    the integers is the division of their conversions, and the sum is a
    float. *)
Definition minutes (total_time : timedelta.t) : pyval :=
  VFloat (PrimFloat.add
            (Z2float (timedelta.days total_time * 1440))
            (PrimFloat.div (Z2float (timedelta.seconds total_time)) (Z2float 60))).

Definition findRuntime (op : Operation.t) : result pyval :=
  job <- list_index (Operation.jobs op) (-1) ;;
  time_json <- Job.state job ;;
  let runtime := VStr "" in
  match trace_stamps time_json with
  | Raise _ => Ok runtime
  | Ok (start_time, end_time) =>
      start <- to_utc start_time ;;
      end_ <- to_utc end_time ;;
      let total_time := datetime_sub end_ start in
      Ok (minutes total_time)
  end.

(** ** [findData] *)

(** The loop of the "Status" rule over the data associations. *)
Definition status_step (value : pyval) (da : DataAssociation.t) : pyval :=
  let value := if String.eqb (DataAssociation.key da) "job_crash"
               then VStr "crashed" else value in
  let value := if String.eqb (DataAssociation.key da) "aborted"
               then VStr "aborted" else value in
  let value := if String.eqb (DataAssociation.key da) "canceled"
               then VStr "canceled" else value in
  value.

(** The loop [for da in das: if da.key == k: value = da.value]. *)
Definition keyed_value (k : string) (value : pyval) (das : list DataAssociation.t)
  : pyval :=
  fold_left
    (fun value da =>
       if String.eqb (DataAssociation.key da) k then DataAssociation.value da
       else value)
    das value.

(** The rule shared by "Concentration Keyword", "White Colonies" and
    "Blue Colonies": the last output's item and its data associations. *)
Definition output_value (op : Operation.t) (k : string) (value : pyval)
  : result pyval :=
  out <- list_index (Operation.outputs op) (-1) ;;
  match FieldValue.item out with
  | Some it =>
      match Item.data_associations it with
      | [] => Ok value
      | das => Ok (keyed_value k value das)
      end
  | None => Ok value
  end.

(** The guard [self.op_data["Status"][-1] == "done" and
    self.op_data["Runtime"][-1]] of the four fields that depend on the
    runtime. *)
Definition done_with_runtime (self : DAMPAqData.t) : result bool :=
  s <- row_so_far self "Status" ;;
  if eq_str s "done" then r <- row_so_far self "Runtime" ;; Ok (truthy r)
  else Ok false.

Definition unknown_message : string :=
  " is not a known data type. Must input additional collection parameter (i.e., op.id)".

Definition findData (self : DAMPAqData.t) (op : Operation.t) (key : string)
    (check : option pyval) : result DAMPAqData.t :=
  let value := VStr "" in
  match check with
  | None =>
      value <- (if String.eqb key "Date" then Ok (VStr (Operation.created_at op))
                else Ok value) ;;
      value <- (if String.eqb key "ID" then Ok (VInt (Operation.id op))
                else Ok value) ;;
      value <- (if String.eqb key "Protocol"
                then Ok (VStr (Operation.operation_type_name op))
                else Ok value) ;;
      value <- (if String.eqb key "Technician" then
                  job <- list_index (Operation.jobs op) (-1) ;;
                  uid <- match Job.user_id job with
                         | Some u => Ok u
                         | None => Raise TypeError
                         end ;;
                  n <- attr (AqSession.User_find (session self) uid) User.name ;;
                  Ok (VStr n)
                else Ok value) ;;
      value <- (if String.eqb key "Status" then
                  let value := VStr (Operation.status op) in
                  try_except_pass value
                    (match Operation.data_associations op with
                     | [] => Ok value
                     | das =>
                         if eq_str value "error"
                         then Ok (fold_left status_step das value)
                         else Ok value
                     end)
                else Ok value) ;;
      value <- (if String.eqb key "Error Message" then
                  try_except_pass value
                    (match Operation.data_associations op with
                     | [] => Ok value
                     | das =>
                         s <- row_so_far self "Status" ;;
                         if negb (eq_str s "done") then
                           let data :=
                             List.filter
                               (fun da => str_in (DataAssociation.key da) (ERRORS self))
                               das in
                           Ok (fold_left
                                 (fun _ da => VStr (DataAssociation.key da))
                                 data value)
                         else Ok value
                     end)
                else Ok value) ;;
      value <- (if String.eqb key "Job Size" then
                  job <- list_index (Operation.jobs op) (-1) ;;
                  Ok (VInt (Z.of_nat (length (Job.operations job))))
                else Ok value) ;;
      value <- (if String.eqb key "Runtime" then
                  s <- row_so_far self "Status" ;;
                  if eq_str s "done" then findRuntime op else Ok value
                else Ok value) ;;
      value <- (if String.eqb key "Hands-off Time" then
                  s <- row_so_far self "Status" ;;
                  if eq_str s "done" then
                    i <- str_index (PROTOCOLS self) (Operation.operation_type_name op) ;;
                    list_index (HANDS_OFF_TIME self) i
                  else Ok value
                else Ok value) ;;
      value <- (if String.eqb key "Hands-on Time" then
                  g <- done_with_runtime self ;;
                  if g then
                    a <- row_so_far self "Runtime" ;;
                    b <- row_so_far self "Hands-off Time" ;;
                    py_sub a b
                  else Ok value
                else Ok value) ;;
      value <- (if String.eqb key "Hands-on Time/Job" then
                  g <- done_with_runtime self ;;
                  if g then
                    a <- row_so_far self "Hands-on Time" ;;
                    b <- row_so_far self "Job Size" ;;
                    py_truediv a b
                  else Ok value
                else Ok value) ;;
      value <- (if String.eqb key "Cost/Job" then
                  i <- str_index (PROTOCOLS self) (Operation.operation_type_name op) ;;
                  list_index (COSTS self) i
                else Ok value) ;;
      value <- (if String.eqb key "Total Cost" then
                  a <- row_so_far self "Job Size" ;;
                  b <- row_so_far self "Cost/Job" ;;
                  py_mul a b
                else Ok value) ;;
      value <- (if String.eqb key "Cost/Minute (Total)" then
                  g <- done_with_runtime self ;;
                  if g then
                    a <- row_so_far self "Total Cost" ;;
                    b <- row_so_far self "Runtime" ;;
                    py_truediv a b
                  else Ok value
                else Ok value) ;;
      value <- (if String.eqb key "Cost/Minute (Hands-on)" then
                  g <- done_with_runtime self ;;
                  if g then
                    a <- row_so_far self "Total Cost" ;;
                    b <- row_so_far self "Hands-on Time" ;;
                    py_truediv a b
                  else Ok value
                else Ok value) ;;
      value <- (if String.eqb key "Concentration Keyword"
                then output_value op "concentration_keyword" value
                else Ok value) ;;
      value <- (if String.eqb key "White Colonies" then
                  p <- row_so_far self "Protocol" ;;
                  if eq_str p "Check Plate"
                  then output_value op "white_colonies" value
                  else Ok value
                else Ok value) ;;
      value <- (if String.eqb key "Blue Colonies" then
                  p <- row_so_far self "Protocol" ;;
                  if eq_str p "Check Plate"
                  then output_value op "blue_colonies" value
                  else Ok value
                else Ok value) ;;
      if str_in key (OUTPUTS self) then appendData self key value
      else
        self <- appendData self key (VStr "") ;;
        Ok (print self (String.append key unknown_message))
  | Some _ => appendData self key value
  end.

(** ** [collectData] *)

(** The two inner loops: every output of every operation. *)
Definition collectRows (self : DAMPAqData.t) (operations : list Operation.t)
  : result DAMPAqData.t :=
  for_each operations
    (fun self op => for_each (OUTPUTS self) (fun self o => findData self op o None) self)
    self.

Definition collectProtocol (time : Z) (self : DAMPAqData.t) (p : Z)
  : result DAMPAqData.t :=
  let self := createEmptyDict self in
  operations <- collectOperations self p time ;;
  self <- collectRows self operations ;;
  n <- attr (AqSession.OperationType_find (session self) p) OperationType.name ;;
  Ok (writeData self n).

Definition collectData (self : DAMPAqData.t) (time : Z) : result DAMPAqData.t :=
  self <- findKeys self ;;
  for_each (PROTOCOL_KEYS self) (collectProtocol time) self.

(** ** Vocabulary of the statements *)

(** The field names [findData] has a rule for. *)
Definition catalog : list string :=
  [ "Date"; "ID"; "Protocol"; "Technician"; "Status"; "Error Message";
    "Job Size"; "Runtime"; "Hands-off Time"; "Hands-on Time";
    "Hands-on Time/Job"; "Cost/Job"; "Total Cost"; "Cost/Minute (Total)";
    "Cost/Minute (Hands-on)"; "Concentration Keyword"; "White Colonies";
    "Blue Colonies" ].

(** Seconds since the start of the calendar. *)
Definition calendar_seconds (d : datetime.t) : Z :=
  datetime.toordinal d * 86400 + seconds_of_day d.

(** The fields computed from the runtime. *)
Definition runtime_dependents : list string :=
  [ "Hands-on Time"; "Hands-on Time/Job"; "Cost/Minute (Total)";
    "Cost/Minute (Hands-on)" ].

(** The number of values a field has in the accumulator. *)
Definition column_length (self : DAMPAqData.t) (f : string) : option nat :=
  length <$> (op_data self !! f).

(** The accumulator has the configured outputs as its keys, as
    [createEmptyDict] leaves it. *)
Definition keyed_by_outputs (self : DAMPAqData.t) : Prop :=
  forall f : string, is_Some (op_data self !! f) <-> In f (OUTPUTS self).

(** The instance after [value] has been appended to the list of [key],
    which held [l]. *)
Definition appended (self : DAMPAqData.t) (key : string) (l : list pyval)
    (value : pyval) : DAMPAqData.t :=
  set_op_data self (<[key := l ++ [value]]> (op_data self)).

(** [self.op_data[f]] after a computation that may have raised. *)
Definition column (r : result DAMPAqData.t) (f : string) : result (list pyval) :=
  self <- r ;;
  match op_data self !! f with
  | Some l => Ok l
  | None => Raise KeyError
  end.

(** The "Status" rule, told by its result: the word for the last data
    association whose key is one of the three. *)
Definition override_of (k : string) : option string :=
  if String.eqb k "job_crash" then Some "crashed"
  else if String.eqb k "aborted" then Some "aborted"
  else if String.eqb k "canceled" then Some "canceled"
  else None.

Definition last_override (das : list DataAssociation.t) : option string :=
  last (omap (fun da => override_of (DataAssociation.key da)) das).

(** The keys of the data associations that are configured error keywords,
    in the record's order. *)
Definition error_keys (self : DAMPAqData.t) (op : Operation.t) : list string :=
  List.filter (fun k => str_in k (ERRORS self))
    (List.map DataAssociation.key (Operation.data_associations op)).

(** The technician of a record: the user of its most recent job. *)
Definition technician (op : Operation.t) : option Z :=
  job ← last (Operation.jobs op); Job.user_id job.

(** The filter of [collectOperations], told by its parts. *)
Definition owner_resolved (self : DAMPAqData.t) (op : Operation.t) : Prop :=
  In (Operation.user_id op) (USER_KEYS self).

Definition has_technician (op : Operation.t) : Prop :=
  exists u : Z, technician op = Some u /\ u <> 0.

(** The same filter as a test on one record. *)
Definition matches (self : DAMPAqData.t) (op : Operation.t) : bool :=
  existsb (Z.eqb (Operation.user_id op)) (USER_KEYS self)
  && match technician op with
     | Some u => negb (u =? 0)
     | None => false
     end.

(** ** Sample data *)

Module Sample.

Definition step (stamp : json) : json := JObj [("time", stamp)].

(** The trace of the specification's example. *)
Definition trace_ten_minutes : json :=
  JArr [ step (JStr "2018-01-01T00:00:00+00:00");
         step (JStr "2018-01-01T00:10:00+00:00");
         step (JStr "marker") ].

Definition trace_two_steps : json :=
  JArr [ step (JStr "2018-01-01T00:00:00+00:00");
         step (JStr "2018-01-01T00:10:00+00:00") ].

Definition trace_one_step : json :=
  JArr [ step (JStr "2018-01-01T00:00:00+00:00") ].

(** 2018-01-01 00:00:00 and 00:10:00 UTC as seconds since the epoch. *)
Definition trace_epoch : json :=
  JArr [ step (JInt 1514764800); step (JInt 1514765400); step (JInt 0) ].

Definition operation (status : string) (owner : Z) (tech : option Z) (trace : json)
    (das : list DataAssociation.t) : Operation.t :=
  Operation.mk 7 "2018-01-01T00:00:00.000-05:00" status owner "Check Plate"
    [Job.mk tech [7; 8] (Ok trace)] das [].

Definition op_done : Operation.t :=
  operation "done" 1 (Some 2) trace_ten_minutes [].

Definition op_two_steps : Operation.t :=
  operation "done" 1 (Some 2) trace_two_steps [].

Definition op_one_step : Operation.t :=
  operation "done" 1 (Some 2) trace_one_step [].

Definition op_epoch : Operation.t :=
  operation "done" 1 (Some 2) trace_epoch [].

Definition op_crash : Operation.t :=
  operation "error" 1 (Some 2) trace_ten_minutes
    [DataAssociation.mk "job_crash" (VStr "RuntimeError")].

Definition op_crash_aborted : Operation.t :=
  operation "error" 1 (Some 2) trace_ten_minutes
    [ DataAssociation.mk "job_crash" (VStr "RuntimeError");
      DataAssociation.mk "aborted" (VBool true) ].

(** Owned by user 3, run by technician 1. *)
Definition op_other_owner : Operation.t :=
  operation "done" 3 (Some 1) trace_ten_minutes [].

Definition store : AqSession.t :=
  AqSession.mk
    [User.mk 1 "alice"; User.mk 2 "bob"; User.mk 3 "carol"]
    [OperationType.mk 5 "Check Plate" true [op_done; op_other_owner]].

(** An instance after [loadInputs] and [findKeys], with a given output
    list. *)
Definition instance (outputs : list string) : DAMPAqData.t :=
  DAMPAqData.mk ["alice"] ["Check Plate"] [1] [5] [VInt 4] outputs
    [VFloat 2.5] ["job_crash"; "aborted"] store ∅ [] [].

Definition ready (outputs : list string) : DAMPAqData.t :=
  createEmptyDict (instance outputs).

(** The instance once the "Status" rule has put [v] in the row. *)
Definition with_status (outputs : list string) (v : pyval) : DAMPAqData.t :=
  appended (ready outputs) "Status" [] v.

(** The instance with the given fields of the current row filled in. *)
Definition with_row (outputs : list string) (cells : list (string * pyval))
  : DAMPAqData.t :=
  fold_left (fun self '(k, v) => appended self k [] v) cells (ready outputs).

Definition runtime_outputs : list string :=
  [ "Status"; "Runtime"; "Hands-off Time"; "Hands-on Time"; "Job Size";
    "Hands-on Time/Job"; "Cost/Job"; "Total Cost"; "Cost/Minute (Total)";
    "Cost/Minute (Hands-on)" ].

End Sample.

(** ** The spreadsheet side

    The spreadsheet is outside the program; the two methods below use it
    through a few calls only, and the model keeps what those calls read and
    change: the titles of the worksheets of a spreadsheet, and the first
    column and the number of rows of a worksheet. *)

Module Worksheet.

(** [column1] is what [sheet.get_col(1)] returns, a list of cell texts. *)
Record t : Type := mk { column1 : list string; rows : Z }.

(** [sheet.add_rows(n)] *)
Definition add_rows (sheet : t) (n : Z) : t :=
  {| column1 := column1 sheet; rows := rows sheet + n |}.

End Worksheet.

(** The loop [while column[row]: row += 1] of [findFirstEmptyRow], inside
    its [try]: the row at which it stops, and whether it stopped because
    [column[row]] raised. Every turn moves one cell on, so the loop is given
    as many turns as the call below needs. *)
Fixpoint while_filled (fuel : nat) (column : list string) (row : Z)
  : option (Z * bool) :=
  match fuel with
  | O => None
  | S fuel' =>
      match list_index column row with
      | Raise _ => Some (row, true)
      | Ok cell =>
          if negb (String.eqb cell "") then while_filled fuel' column (row + 1)
          else Some (row, false)
      end
  end.

(** [findFirstEmptyRow]: the row it returns and the worksheet afterwards
    ([None] only if the loop were to need more turns than it is given). *)
Definition findFirstEmptyRow (sheet : Worksheet.t) : option (Z * Worksheet.t) :=
  let column := Worksheet.column1 sheet in
  let row := 0 in
  match column with
  | [] => Some (row + 1, sheet)
  | _ :: _ =>
      match while_filled (S (length column)) column row with
      | None => None
      | Some (row, true) => Some (row, Worksheet.add_rows sheet 1)
      | Some (row, false) => Some (row + 1, sheet)
      end
  end.

(** [createSheets] on the titles of the spreadsheet's worksheets:
    [worksheet_by_title] raises when no worksheet has the title, and the
    handler adds one at the end. *)
Definition worksheet_by_title (spreadsheet : list string) (title : string)
  : option string :=
  List.find (String.eqb title) spreadsheet.

Definition add_worksheet (spreadsheet : list string) (title : string) : list string :=
  spreadsheet ++ [title].

Definition createSheets (self : DAMPAqData.t) (spreadsheet : list string)
  : list string :=
  fold_left
    (fun spreadsheet protocol =>
       match worksheet_by_title spreadsheet protocol with
       | Some _ => spreadsheet
       | None => add_worksheet spreadsheet protocol
       end)
    (PROTOCOLS self) spreadsheet.

(** ** More vocabulary *)

(** A cell that [findFirstEmptyRow] takes as filled: its text is true as a
    condition. *)
Definition filled (cell : string) : Prop := cell <> "".

(** What [findKeys] looks up for one user name and for one protocol name. *)
Definition resolve_user (s : AqSession.t) (user : string) : option Z :=
  User.id <$> AqSession.User_find_by_name s user.

Definition resolve_protocol (s : AqSession.t) (protocol : string) : option Z :=
  OperationType.id <$> last (AqSession.OperationType_where s protocol).

(** Two instances that differ at most in the accumulator. *)
Definition same_configuration (a b : DAMPAqData.t) : Prop :=
  USERS a = USERS b /\ PROTOCOLS a = PROTOCOLS b
  /\ USER_KEYS a = USER_KEYS b /\ PROTOCOL_KEYS a = PROTOCOL_KEYS b
  /\ HANDS_OFF_TIME a = HANDS_OFF_TIME b /\ OUTPUTS a = OUTPUTS b
  /\ COSTS a = COSTS b /\ ERRORS a = ERRORS b
  /\ session a = session b /\ stdout a = stdout b /\ written a = written b.

(** The data associations the rules for output items look at: those of the
    item of the last output. *)
Definition last_item_associations (op : Operation.t) : list DataAssociation.t :=
  match last (Operation.outputs op) with
  | Some out =>
      match FieldValue.item out with
      | Some it => Item.data_associations it
      | None => []
      end
  | None => []
  end.

(** The value of the last data association with key [k], if there is one. *)
Definition last_value_of (k : string) (das : list DataAssociation.t) : option pyval :=
  DataAssociation.value
    <$> last (List.filter (fun da => String.eqb (DataAssociation.key da) k) das).

(** The fields read from the item of the last output, each with the key of
    the data association it takes its value from. *)
Definition item_fields : list (string * string) :=
  [ ("Concentration Keyword", "concentration_keyword");
    ("White Colonies", "white_colonies");
    ("Blue Colonies", "blue_colonies") ].

(** More sample data. *)
Module Fixture.

(** A store whose second record of the protocol has a trace of integers. *)
Definition store_with_epoch : AqSession.t :=
  AqSession.mk
    [User.mk 1 "alice"; User.mk 2 "bob"]
    [OperationType.mk 5 "Check Plate" true
       [Sample.op_done; Sample.op_epoch; Sample.op_crash]].

Definition instance_with_epoch : DAMPAqData.t :=
  DAMPAqData.mk ["alice"] ["Check Plate"] [1] [5] [VInt 4] ["Status"; "Runtime"]
    [VFloat 2.5] [] store_with_epoch ∅ [] [].

(** A record with one output, a plate with two colony counts. *)
Definition plate : Item.t :=
  Item.mk [ DataAssociation.mk "white_colonies" (VInt 12);
            DataAssociation.mk "blue_colonies" (VInt 3);
            DataAssociation.mk "white_colonies" (VInt 15) ].

Definition op_plate : Operation.t :=
  Operation.mk 9 "2018-01-02T00:00:00.000-05:00" "done" 1 "Check Plate"
    [Job.mk (Some 2) [9] (Ok Sample.trace_ten_minutes)] []
    [FieldValue.mk None; FieldValue.mk (Some plate)].

(** A record whose first stamp is no date. *)
Definition op_marker_first : Operation.t :=
  Sample.operation "done" 1 (Some 2)
    (JArr [Sample.step (JStr "marker"); Sample.step (JStr "marker")]) [].

End Fixture.

(** * Properties *)

#[local] Arguments findData : simpl never.
#[local] Arguments findRuntime : simpl never.
#[local] Arguments row_so_far : simpl never.
#[local] Arguments appendData : simpl never.

(** ** Fallible computations *)

Lemma bind_Ok {A B : Type} (m : result A) (k : A -> result B) (b : B) :
  bind m k = Ok b -> exists a, m = Ok a /\ k a = Ok b.
Proof.
  destruct m as [a | e]; simpl; intros H; [ eauto | discriminate ].
Qed.

Lemma str_in_In (x : string) (l : list string) : str_in x l = true <-> In x l.
Proof.
  unfold str_in. rewrite existsb_exists. split.
  - intros (y & Hy & E). apply String.eqb_eq in E. now subst.
  - intros H. exists x. split; [ assumption | apply String.eqb_refl ].
Qed.

Lemma str_in_not_In (x : string) (l : list string) : str_in x l = false <-> ~ In x l.
Proof.
  rewrite <- str_in_In. destruct (str_in x l); split; congruence.
Qed.

(** ** The accumulator *)

Lemma createEmptyDict_lookup (self : DAMPAqData.t) (f : string) :
  op_data (createEmptyDict self) !! f = if str_in f (OUTPUTS self) then Some [] else None.
Proof.
  unfold createEmptyDict; simpl.
  induction (OUTPUTS self) as [| o outs IH]; simpl.
  - apply lookup_empty.
  - destruct (String.eqb f o) eqn:E.
    + apply String.eqb_eq in E; subst. simpl. apply lookup_insert_eq.
    + apply String.eqb_neq in E. simpl. rewrite lookup_insert_ne by congruence.
      exact IH.
Qed.

Lemma createEmptyDict_keyed (self : DAMPAqData.t) : keyed_by_outputs (createEmptyDict self).
Proof.
  intros f. rewrite createEmptyDict_lookup. change (OUTPUTS (createEmptyDict self)) with (OUTPUTS self).
  rewrite <- str_in_In. destruct (str_in f (OUTPUTS self)); split; intros H.
  - reflexivity.
  - exists []. reflexivity.
  - destruct H as [l Hl]. discriminate.
  - discriminate.
Qed.

Lemma appendData_Ok (self self' : DAMPAqData.t) (key : string) (value : pyval) :
  appendData self key value = Ok self' ->
  exists l, op_data self !! key = Some l
            /\ self' = set_op_data self (<[key := l ++ [value]]> (op_data self)).
Proof.
  unfold appendData. destruct (op_data self !! key) as [l |]; intros H;
    [ injection H as <-; eauto | discriminate ].
Qed.

(** A call of [findData] that returns has appended one value to the list of
    its field and left the rest of the accumulator and the configuration as
    they were. *)
Lemma findData_Ok (self self' : DAMPAqData.t) (op : Operation.t) (key : string)
    (check : option pyval) :
  findData self op key check = Ok self' ->
  exists l v, op_data self !! key = Some l
              /\ op_data self' = <[key := l ++ [v]]> (op_data self)
              /\ OUTPUTS self' = OUTPUTS self.
Proof.
  unfold findData. destruct check as [c |].
  - intros H. apply appendData_Ok in H as (l & Hl & ->). exists l, (VStr ""). auto.
  - intros H.
    repeat match type of H with
           | bind _ _ = Ok _ => apply bind_Ok in H as (? & _ & H)
           end.
    destruct (str_in key (OUTPUTS self)).
    + apply appendData_Ok in H as (l & Hl & ->). eauto.
    + apply bind_Ok in H as (s1 & H1 & H). injection H as <-.
      apply appendData_Ok in H1 as (l & Hl & ->). exists l, (VStr ""). auto.
Qed.

Lemma findData_column_length (self self' : DAMPAqData.t) (op : Operation.t)
    (key : string) (check : option pyval) (f : string) :
  findData self op key check = Ok self' ->
  column_length self' f
  = (fun n => if string_dec key f then S n else n) <$> column_length self f.
Proof.
  intros H. apply findData_Ok in H as (l & v & Hl & Hd & _).
  unfold column_length. rewrite Hd.
  destruct (string_dec key f) as [-> | Hne].
  - rewrite lookup_insert_eq, Hl. simpl. rewrite length_app. simpl. f_equal. lia.
  - rewrite lookup_insert_ne by assumption. destruct (op_data self !! f); reflexivity.
Qed.

(** One record: every name of [outs] gets as many values as it occurs. *)
Lemma row_column_length (op : Operation.t) (outs : list string) (f : string) :
  forall self self' : DAMPAqData.t,
    for_each outs (fun self o => findData self op o None) self = Ok self' ->
    OUTPUTS self' = OUTPUTS self
    /\ column_length self' f
       = (fun n => (n + count_occ string_dec outs f)%nat) <$> column_length self f.
Proof.
  induction outs as [| o outs IH]; intros self self' H; simpl in H.
  - injection H as <-. split; [ reflexivity | ].
    simpl. destruct (column_length self f); simpl; f_equal; lia.
  - apply bind_Ok in H as (s1 & H1 & H).
    destruct (IH _ _ H) as [HO HL].
    pose proof (findData_column_length _ _ _ _ _ f H1) as H1L.
    apply findData_Ok in H1 as (_ & _ & _ & _ & HO1).
    split; [ congruence | ].
    rewrite HL, H1L. simpl.
    destruct (column_length self f); simpl; [ | reflexivity ].
    destruct (string_dec o f); f_equal; lia.
Qed.

Lemma rows_column_length (operations : list Operation.t) (f : string) :
  forall self self' : DAMPAqData.t,
    collectRows self operations = Ok self' ->
    OUTPUTS self' = OUTPUTS self
    /\ column_length self' f
       = (fun n => (n + length operations * count_occ string_dec (OUTPUTS self) f)%nat)
           <$> column_length self f.
Proof.
  unfold collectRows.
  induction operations as [| op ops IH]; intros self self' H; simpl in H.
  - injection H as <-. split; [ reflexivity | ].
    simpl. destruct (column_length self f); simpl; f_equal; lia.
  - apply bind_Ok in H as (s1 & H1 & H).
    destruct (IH _ _ H) as [HO HL].
    destruct (row_column_length _ _ f _ _ H1) as [HO1 HL1].
    split; [ congruence | ].
    rewrite HL, HL1, HO1.
    destruct (column_length self f); simpl; [ | reflexivity ].
    f_equal. lia.
Qed.

(** C2 (as amended): when the processing of [K] records returns, a configured
    field name that occurs [m] times in the output list has [m * K] values in
    the accumulator; so every field has exactly [K] values when no name is
    listed twice. *)
Theorem accumulator_lengths (self self' : DAMPAqData.t) (operations : list Operation.t)
    (f : string) :
  collectRows (createEmptyDict self) operations = Ok self' ->
  In f (OUTPUTS self) ->
  column_length self' f
  = Some (length operations * count_occ string_dec (OUTPUTS self) f)%nat
  /\ (List.NoDup (OUTPUTS self) -> column_length self' f = Some (length operations)).
Proof.
  intros H Hf.
  destruct (rows_column_length _ f _ _ H) as [_ HL].
  change (OUTPUTS (createEmptyDict self)) with (OUTPUTS self) in HL.
  unfold column_length in HL at 2. rewrite createEmptyDict_lookup in HL.
  apply str_in_In in Hf as Hin. rewrite Hin in HL. simpl in HL.
  split; [ exact HL | ].
  intros Hnd. rewrite HL. f_equal.
  rewrite (proj1 (NoDup_count_occ' string_dec (OUTPUTS self)) Hnd f Hf). lia.
Qed.

(** ** [findData], rule by rule *)

(** Decides the tests [key == "..."] of [findData] for a literal key and
    runs the rules that are skipped. *)
Ltac rule_of_key :=
  unfold findData;
  repeat match goal with
         | |- context [String.eqb ?a ?b] =>
             let v := eval vm_compute in (String.eqb a b) in
             match v with
             | true => change (String.eqb a b) with true
             | false => change (String.eqb a b) with false
             end
         end;
  cbn [bind].

(** A name outside the catalog reaches the end of [findData] with the empty
    string. *)
Lemma findData_outside_catalog (self : DAMPAqData.t) (op : Operation.t) (key : string) :
  ~ In key catalog ->
  findData self op key None
  = if str_in key (OUTPUTS self) then appendData self key (VStr "")
    else (self' <- appendData self key (VStr "") ;;
          Ok (print self' (String.append key unknown_message))).
Proof.
  intros H. unfold findData.
  repeat match goal with
         | |- context [String.eqb key ?s] =>
             rewrite (proj2 (String.eqb_neq key s))
               by (intros ->; apply H; unfold catalog;
                   repeat ((left; reflexivity) || right))
         end.
  reflexivity.
Qed.

Lemma appendData_known (self : DAMPAqData.t) (key : string) (l : list pyval)
    (value : pyval) :
  op_data self !! key = Some l ->
  appendData self key value = Ok (appended self key l value).
Proof. unfold appendData. intros ->. reflexivity. Qed.

(** The "Status" rule never raises. *)
Lemma findData_Status (self : DAMPAqData.t) (op : Operation.t) (l : list pyval) :
  In "Status" (OUTPUTS self) ->
  op_data self !! "Status" = Some l ->
  findData self op "Status" None
  = Ok (appended self "Status" l
          (match Operation.data_associations op with
           | [] => VStr (Operation.status op)
           | das => if String.eqb (Operation.status op) "error"
                    then fold_left status_step das (VStr (Operation.status op))
                    else VStr (Operation.status op)
           end)).
Proof.
  intros Hin Hl. apply str_in_In in Hin. rule_of_key. rewrite Hin.
  destruct (Operation.data_associations op) as [| da das]; simpl.
  - now apply appendData_known.
  - destruct (String.eqb (Operation.status op) "error"); simpl;
      now apply appendData_known.
Qed.

(** The "Error Message" rule never raises either: whatever goes wrong while
    the status of the row is read leaves the value empty. *)
Lemma findData_Error_Message (self : DAMPAqData.t) (op : Operation.t)
    (l : list pyval) :
  In "Error Message" (OUTPUTS self) ->
  op_data self !! "Error Message" = Some l ->
  findData self op "Error Message" None
  = Ok (appended self "Error Message" l
          (match Operation.data_associations op, row_so_far self "Status" with
           | _ :: _, Ok s =>
               if eq_str s "done" then VStr ""
               else fold_left (fun _ da => VStr (DataAssociation.key da))
                      (List.filter
                         (fun da => str_in (DataAssociation.key da) (ERRORS self))
                         (Operation.data_associations op))
                      (VStr "")
           | _, _ => VStr ""
           end)).
Proof.
  intros Hin Hl. apply str_in_In in Hin. rule_of_key. rewrite Hin.
  destruct (Operation.data_associations op) as [| da das]; cbn [try_except_pass].
  - now apply appendData_known.
  - destruct (row_so_far self "Status") as [s | e]; cbn [bind try_except_pass].
    + destruct (eq_str s "done"); cbn [negb try_except_pass];
        now apply appendData_known.
    + now apply appendData_known.
Qed.

(** A name that is neither in the catalog nor a configured output is no key
    of the accumulator: the append at the end of [findData] raises. *)
Lemma findData_unconfigured (self : DAMPAqData.t) (op : Operation.t) (key : string) :
  keyed_by_outputs self ->
  ~ In key catalog ->
  ~ In key (OUTPUTS self) ->
  findData self op key None = Raise KeyError.
Proof.
  intros Hk Hc Hout.
  rewrite findData_outside_catalog by assumption.
  rewrite (proj2 (str_in_not_In _ _) Hout).
  unfold appendData. destruct (op_data self !! key) as [l |] eqn:E; [ | reflexivity ].
  exfalso. apply Hout, Hk. eauto.
Qed.

(** C1 (as amended): with the accumulator keyed by the configured outputs,
    a configured field name outside the catalog gets the empty string and
    the call returns; the rules of "Status" and "Error Message" return for
    every record, and "Error Message" is empty when the status cannot be
    read from the row. (The other rules do not catch what they raise.) *)
Theorem derive_unknown_and_swallowed (self : DAMPAqData.t) (op : Operation.t)
    (key : string) :
  keyed_by_outputs self ->
  (~ In key catalog ->
   In key (OUTPUTS self) ->
   exists l self',
     op_data self !! key = Some l
     /\ findData self op key None = Ok self'
     /\ op_data self' = <[key := l ++ [VStr ""]]> (op_data self))
  /\ (In "Status" (OUTPUTS self) ->
      exists l v self',
        op_data self !! "Status" = Some l
        /\ findData self op "Status" None = Ok self'
        /\ op_data self' = <["Status" := l ++ [v]]> (op_data self))
  /\ (In "Error Message" (OUTPUTS self) ->
      exists l v self',
        op_data self !! "Error Message" = Some l
        /\ findData self op "Error Message" None = Ok self'
        /\ op_data self' = <["Error Message" := l ++ [v]]> (op_data self)
        /\ (forall e, row_so_far self "Status" = Raise e -> v = VStr "")).
Proof.
  intros Hk. repeat split.
  - intros Hc Hin. destruct (proj2 (Hk key) Hin) as [l Hl].
    exists l, (appended self key l (VStr "")).
    split; [ assumption | ]. split; [ | reflexivity ].
    rewrite findData_outside_catalog by assumption.
    rewrite (proj2 (str_in_In _ _) Hin). now apply appendData_known.
  - intros Hin. destruct (proj2 (Hk _) Hin) as [l Hl].
    eexists l, _, _. split; [ assumption | ].
    split; [ exact (findData_Status self op l Hin Hl) | reflexivity ].
  - intros Hin. destruct (proj2 (Hk _) Hin) as [l Hl].
    eexists l, _, _. split; [ assumption | ].
    split; [ exact (findData_Error_Message self op l Hin Hl) | ].
    split; [ reflexivity | ].
    intros e He. rewrite He. destruct (Operation.data_associations op); reflexivity.
Qed.

Lemma derive_unknown_and_swallowed_witness :
  exists l self',
    op_data (Sample.ready ["Status"; "Plate Count"]) !! "Plate Count" = Some l
    /\ findData (Sample.ready ["Status"; "Plate Count"]) Sample.op_done
         "Plate Count" None = Ok self'
    /\ op_data self'
       = <["Plate Count" := l ++ [VStr ""]]>
           (op_data (Sample.ready ["Status"; "Plate Count"])).
Proof.
  apply (derive_unknown_and_swallowed
           (Sample.ready ["Status"; "Plate Count"]) Sample.op_done "Plate Count").
  - apply createEmptyDict_keyed.
  - unfold catalog. simpl. intuition discriminate.
  - simpl. auto.
Defined.

(** C1, as stated, fails: with "Runtime" configured and "Status" not, the
    rule of "Runtime" reads a field that is not in the row and raises. *)
Lemma derive_raises_on_missing_status :
  findData (Sample.ready ["Runtime"]) Sample.op_done "Runtime" None = Raise KeyError.
Proof. vm_compute. reflexivity. Qed.

(** With "Status" configured after "Runtime", the first record raises
    [IndexError] instead. *)
Example derive_raises_on_late_status :
  findData (Sample.ready ["Runtime"; "Status"]) Sample.op_done "Runtime" None
  = Raise IndexError.
Proof. vm_compute. reflexivity. Qed.

(** ** The "Status" rule *)

Lemma status_step_override (value : pyval) (da : DataAssociation.t) :
  status_step value da
  = match override_of (DataAssociation.key da) with
    | Some w => VStr w
    | None => value
    end.
Proof.
  unfold status_step, override_of.
  destruct (String.eqb_spec (DataAssociation.key da) "job_crash") as [E1 | N1];
    destruct (String.eqb_spec (DataAssociation.key da) "aborted") as [E2 | N2];
    destruct (String.eqb_spec (DataAssociation.key da) "canceled") as [E3 | N3];
    try reflexivity; congruence.
Qed.

Lemma fold_status_step (das : list DataAssociation.t) :
  forall value : pyval,
    fold_left status_step das value
    = match last_override das with
      | Some w => VStr w
      | None => value
      end.
Proof.
  unfold last_override.
  induction das as [| da das IH]; intros value; [ reflexivity | ].
  cbn [fold_left]. rewrite IH, status_step_override. cbn [omap list_omap].
  destruct (override_of (DataAssociation.key da)) as [w |]; [ | reflexivity ].
  rewrite last_cons.
  match goal with |- context [last ?x] => destruct (last x) end; reflexivity.
Qed.

Lemma fold_status_step_crashed (post : list DataAssociation.t) :
  (forall d, In d post ->
             DataAssociation.key d <> "aborted" /\ DataAssociation.key d <> "canceled") ->
  fold_left status_step post (VStr "crashed") = VStr "crashed".
Proof.
  induction post as [| d post IH]; intros H; [ reflexivity | ].
  cbn [fold_left].
  assert (E : status_step (VStr "crashed") d = VStr "crashed").
  { destruct (H d (or_introl eq_refl)) as [Na Nc].
    unfold status_step.
    rewrite (proj2 (String.eqb_neq _ _) Na), (proj2 (String.eqb_neq _ _) Nc).
    destruct (String.eqb _ _); reflexivity. }
  rewrite E. apply IH. intros d' Hd'. apply H. now right.
Qed.

(** C5: for a record with status "error" the "Status" field is decided by
    the last data association, in scan order, whose key is [job_crash],
    [aborted] or [canceled] (it stays "error" when there is none); with a
    [job_crash] association that no [aborted] or [canceled] one follows it
    is "crashed". *)
Theorem status_last_match_wins (self : DAMPAqData.t) (op : Operation.t)
    (l : list pyval) :
  In "Status" (OUTPUTS self) ->
  op_data self !! "Status" = Some l ->
  Operation.status op = "error" ->
  findData self op "Status" None
  = Ok (appended self "Status" l
          (VStr (default "error" (last_override (Operation.data_associations op)))))
  /\ (forall pre da post,
        Operation.data_associations op = pre ++ da :: post ->
        DataAssociation.key da = "job_crash" ->
        (forall d, In d post ->
                   DataAssociation.key d <> "aborted"
                   /\ DataAssociation.key d <> "canceled") ->
        findData self op "Status" None
        = Ok (appended self "Status" l (VStr "crashed"))).
Proof.
  intros Hin Hl Hs.
  rewrite (findData_Status self op l Hin Hl), Hs. split.
  - destruct (Operation.data_associations op) as [| da das] eqn:E; [ reflexivity | ].
    change (String.eqb "error" "error") with true. cbv beta iota.
    rewrite fold_status_step. destruct (last_override (da :: das)); reflexivity.
  - intros pre da post E Hk Hpost. rewrite E.
    destruct (pre ++ da :: post) as [| x xs] eqn:E'.
    + destruct pre; discriminate.
    + change (String.eqb "error" "error") with true. cbv beta iota. rewrite <- E'.
      rewrite fold_left_app. cbn [fold_left].
      replace (status_step _ da) with (VStr "crashed").
      * now rewrite fold_status_step_crashed.
      * unfold status_step. rewrite Hk. reflexivity.
Qed.

Lemma status_last_match_wins_witness :
  findData (Sample.ready ["Status"]) Sample.op_crash "Status" None
  = Ok (appended (Sample.ready ["Status"]) "Status" [] (VStr "crashed")).
Proof.
  apply (proj2 (status_last_match_wins (Sample.ready ["Status"]) Sample.op_crash []
                  ltac:(simpl; auto) ltac:(reflexivity) ltac:(reflexivity))
           [] (DataAssociation.mk "job_crash" (VStr "RuntimeError")) []).
  - reflexivity.
  - reflexivity.
  - simpl. tauto.
Defined.

(** ** The "Error Message" rule *)

Lemma fold_last_key (data : list DataAssociation.t) :
  forall value : pyval,
    fold_left (fun _ da => VStr (DataAssociation.key da)) data value
    = match last (List.map DataAssociation.key data) with
      | Some k => VStr k
      | None => value
      end.
Proof.
  induction data as [| da data IH]; intros value; [ reflexivity | ].
  cbn [fold_left List.map]. rewrite IH, last_cons.
  match goal with |- context [last ?x] => destruct (last x) end; reflexivity.
Qed.

Lemma map_key_filter (P : string -> bool) (das : list DataAssociation.t) :
  List.map DataAssociation.key (List.filter (fun da => P (DataAssociation.key da)) das)
  = List.filter P (List.map DataAssociation.key das).
Proof.
  induction das as [| da das IH]; [ reflexivity | ].
  simpl. destruct (P (DataAssociation.key da)); simpl; now rewrite IH.
Qed.

(** C4 (as amended): once "Status" is in the row, the "Error Message" field
    is the last key of the record's data associations, in their order, that
    is a configured error keyword; it is empty when the status is "done" or
    when no key is a keyword. *)
Theorem error_message_last_keyword (self : DAMPAqData.t) (op : Operation.t)
    (l : list pyval) (s : pyval) :
  In "Error Message" (OUTPUTS self) ->
  op_data self !! "Error Message" = Some l ->
  row_so_far self "Status" = Ok s ->
  findData self op "Error Message" None
  = Ok (appended self "Error Message" l
          (if eq_str s "done" then VStr ""
           else match last (error_keys self op) with
                | Some k => VStr k
                | None => VStr ""
                end)).
Proof.
  intros Hin Hl Hs.
  rewrite (findData_Error_Message self op l Hin Hl), Hs.
  unfold error_keys.
  destruct (Operation.data_associations op) as [| da das] eqn:E.
  - simpl. destruct (eq_str s "done"); reflexivity.
  - destruct (eq_str s "done"); [ reflexivity | ].
    rewrite fold_last_key, (map_key_filter (fun k => str_in k (ERRORS self))).
    reflexivity.
Qed.

Lemma error_message_last_keyword_witness :
  findData (Sample.with_status ["Status"; "Error Message"] (VStr "aborted"))
    Sample.op_crash_aborted "Error Message" None
  = Ok (appended (Sample.with_status ["Status"; "Error Message"] (VStr "aborted"))
          "Error Message" [] (VStr "aborted")).
Proof.
  apply (error_message_last_keyword
           (Sample.with_status ["Status"; "Error Message"] (VStr "aborted"))
           Sample.op_crash_aborted [] (VStr "aborted")).
  - simpl. auto.
  - reflexivity.
  - reflexivity.
Defined.

(** C4, as stated, fails: both [job_crash] and [aborted] are configured
    keywords, the record carries them in that order, and the field holds
    the second. *)
Lemma error_message_is_not_first_keyword :
  column (collectRows (Sample.ready ["Status"; "Error Message"])
            [Sample.op_crash_aborted]) "Error Message"
  = Ok [VStr "aborted"]
  /\ head (error_keys (Sample.ready ["Status"; "Error Message"]) Sample.op_crash_aborted)
     = Some "job_crash".
Proof. split; vm_compute; reflexivity. Qed.

(** ** Indexing *)

Lemma list_index_nonneg {A : Type} (l : list A) (i : nat) (x : A) :
  nth_error l i = Some x -> list_index l (Z.of_nat i) = Ok x.
Proof.
  intros H. assert (Hlt : (i < length l)%nat) by (apply nth_error_Some; congruence).
  unfold list_index.
  destruct (Z.ltb_spec (Z.of_nat i) 0) as [Hn | _]; [ lia | ].
  destruct (Z.ltb_spec (Z.of_nat i) 0) as [Hn | _]; [ lia | ].
  destruct (Z.leb_spec (Z.of_nat (length l)) (Z.of_nat i)) as [Hn | _]; [ lia | ].
  simpl. rewrite Nat2Z.id, H. reflexivity.
Qed.

Lemma list_index_from_end {A : Type} (l : list A) (k : nat) (x : A) :
  (1 <= k <= length l)%nat ->
  nth_error l (length l - k) = Some x ->
  list_index l (- Z.of_nat k) = Ok x.
Proof.
  intros Hk H. unfold list_index.
  destruct (Z.ltb_spec (- Z.of_nat k) 0) as [_ | Hn]; [ | lia ].
  destruct (Z.ltb_spec (- Z.of_nat k + Z.of_nat (length l)) 0) as [Hn | _]; [ lia | ].
  destruct (Z.leb_spec (Z.of_nat (length l)) (- Z.of_nat k + Z.of_nat (length l)))
    as [Hn | _]; [ lia | ].
  simpl. replace (Z.to_nat (- Z.of_nat k + Z.of_nat (length l))) with (length l - k)%nat by lia.
  rewrite H. reflexivity.
Qed.

Lemma list_index_too_short {A : Type} (l : list A) (k : nat) :
  (length l < k)%nat -> list_index l (- Z.of_nat k) = Raise IndexError.
Proof.
  intros Hk. unfold list_index.
  destruct (Z.ltb_spec (- Z.of_nat k) 0) as [_ | Hn]; [ | lia ].
  destruct (Z.ltb_spec (- Z.of_nat k + Z.of_nat (length l)) 0) as [_ | Hn]; [ | lia ].
  reflexivity.
Qed.

(** [l[-1]] is the last element. *)
Lemma list_index_last {A : Type} (l : list A) (x : A) :
  last l = Some x -> list_index l (-1) = Ok x.
Proof.
  intros H. apply last_Some in H as [l' ->].
  apply (list_index_from_end (l' ++ [x]) 1 x).
  - rewrite length_app. simpl. lia.
  - rewrite length_app. simpl.
    replace (length l' + 1 - 1)%nat with (length l' + 0)%nat by lia.
    rewrite nth_error_app2 by lia.
    replace (length l' + 0 - length l')%nat with 0%nat by lia. reflexivity.
Qed.

(** ** [findRuntime] *)

Lemma datetime_sub_utc (a b : datetime.t) :
  let total_time := datetime_sub (localize_utc a) (localize_utc b) in
  timedelta.days total_time * 86400 + timedelta.seconds total_time
  = calendar_seconds a - calendar_seconds b
  /\ 0 <= timedelta.seconds total_time < 86400.
Proof.
  unfold datetime_sub, timedelta.make, calendar_seconds. simpl.
  set (s := seconds_of_day a - 0 - (seconds_of_day b - 0)).
  pose proof (Z.div_mod s 86400 ltac:(lia)) as Hdm.
  pose proof (Z.mod_pos_bound s 86400 ltac:(lia)) as Hb.
  split; [ | exact Hb ]. subst s. lia.
Qed.

(** The stamps the [try] block reads from a trace of two or more steps. *)
Lemma trace_stamps_first_and_second_to_last (items : list json)
    (first before_last start_time end_time : json) :
  (2 <= length items)%nat ->
  nth_error items 0 = Some first ->
  nth_error items (length items - 2) = Some before_last ->
  subscript_str first "time" = Ok start_time ->
  subscript_str before_last "time" = Ok end_time ->
  trace_stamps (JArr items) = Ok (start_time, end_time).
Proof.
  intros Hlen H0 H2 Hs He. unfold trace_stamps, subscript_int.
  pose proof (list_index_nonneg items 0 first H0) as E0.
  pose proof (list_index_from_end items 2 before_last ltac:(lia) H2) as E2.
  change (Z.of_nat 0) with 0 in E0. change (- Z.of_nat 2) with (-2) in E2.
  rewrite E0. cbn [bind]. rewrite Hs. cbn [bind].
  rewrite E2. cbn [bind]. rewrite He. reflexivity.
Qed.

Lemma findRuntime_stamps (op : Operation.t) (job : Job.t) (time_json : json)
    (start_time end_time : json) :
  last (Operation.jobs op) = Some job ->
  Job.state job = Ok time_json ->
  trace_stamps time_json = Ok (start_time, end_time) ->
  findRuntime op
  = (start <- to_utc start_time ;;
     end_ <- to_utc end_time ;;
     Ok (minutes (datetime_sub end_ start))).
Proof.
  intros Hj Hs Ht. unfold findRuntime.
  rewrite (list_index_last _ _ Hj). cbn [bind]. rewrite Hs. cbn [bind].
  rewrite Ht. reflexivity.
Qed.

Lemma findRuntime_strings (op : Operation.t) (job : Job.t) (time_json : json)
    (s1 s2 : string) (d1 d2 : datetime.t) :
  last (Operation.jobs op) = Some job ->
  Job.state job = Ok time_json ->
  trace_stamps time_json = Ok (JStr s1, JStr s2) ->
  strptime.parse s1 = Ok d1 ->
  strptime.parse s2 = Ok d2 ->
  findRuntime op = Ok (minutes (datetime_sub (localize_utc d2) (localize_utc d1))).
Proof.
  intros Hj Hs Ht H1 H2. rewrite (findRuntime_stamps op job _ _ _ Hj Hs Ht).
  unfold to_utc. rewrite H1, H2. reflexivity.
Qed.

(** A trace of fewer than two steps makes the [try] block raise. *)
Lemma findRuntime_short_trace (op : Operation.t) (job : Job.t) (items : list json) :
  last (Operation.jobs op) = Some job ->
  Job.state job = Ok (JArr items) ->
  (length items < 2)%nat ->
  findRuntime op = Ok (VStr "").
Proof.
  intros Hj Hs Hlen. unfold findRuntime.
  rewrite (list_index_last _ _ Hj). cbn [bind]. rewrite Hs. cbn [bind].
  unfold trace_stamps, subscript_int.
  destruct (list_index items 0) as [first | e]; cbn [bind]; [ | reflexivity ].
  destruct (subscript_str first "time") as [t | e]; cbn [bind]; [ | reflexivity ].
  pose proof (list_index_too_short items 2 Hlen) as E2.
  change (- Z.of_nat 2) with (-2) in E2. rewrite E2. reflexivity.
Qed.

(** C3: for a trace of two or more steps whose first and second-to-last
    stamps are texts that parse, the runtime is the time from the first to
    the second-to-last, both taken as UTC, as a [timedelta] of [days] and
    [seconds] (with [0 <= seconds < 86400]), returned as
    [days * 1440 + seconds / 60]; the trace of the example gives 10.0. *)
Theorem runtime_first_to_second_to_last :
  (forall (op : Operation.t) (job : Job.t) (items : list json)
          (first before_last : json) (s1 s2 : string) (d1 d2 : datetime.t),
      last (Operation.jobs op) = Some job ->
      Job.state job = Ok (JArr items) ->
      (2 <= length items)%nat ->
      nth_error items 0 = Some first ->
      nth_error items (length items - 2) = Some before_last ->
      subscript_str first "time" = Ok (JStr s1) ->
      subscript_str before_last "time" = Ok (JStr s2) ->
      strptime.parse s1 = Ok d1 ->
      strptime.parse s2 = Ok d2 ->
      exists days seconds : Z,
        days * 86400 + seconds = calendar_seconds d2 - calendar_seconds d1
        /\ 0 <= seconds < 86400
        /\ findRuntime op
           = Ok (VFloat (PrimFloat.add (Z2float (days * 1440))
                           (PrimFloat.div (Z2float seconds) (Z2float 60)))))
  /\ findRuntime Sample.op_done = Ok (VFloat 10).
Proof.
  split; [ | vm_compute; reflexivity ].
  intros op job items first before_last s1 s2 d1 d2 Hj Hs Hlen H0 H2 Ht1 Ht2 Hp1 Hp2.
  pose proof (datetime_sub_utc d2 d1) as [Htot Hsec].
  exists (timedelta.days (datetime_sub (localize_utc d2) (localize_utc d1))),
         (timedelta.seconds (datetime_sub (localize_utc d2) (localize_utc d1))).
  split; [ exact Htot | ]. split; [ exact Hsec | ].
  apply (findRuntime_strings op job (JArr items) s1 s2 d1 d2 Hj Hs); try assumption.
  now apply (trace_stamps_first_and_second_to_last items first before_last).
Qed.

Lemma runtime_first_to_second_to_last_witness :
  exists days seconds : Z,
    days * 86400 + seconds
    = calendar_seconds (datetime.mk 2018 1 1 0 10 0)
      - calendar_seconds (datetime.mk 2018 1 1 0 0 0)
    /\ 0 <= seconds < 86400
    /\ findRuntime Sample.op_done
       = Ok (VFloat (PrimFloat.add (Z2float (days * 1440))
                       (PrimFloat.div (Z2float seconds) (Z2float 60)))).
Proof.
  apply (proj1 runtime_first_to_second_to_last
           Sample.op_done
           (Job.mk (Some 2) [7; 8] (Ok Sample.trace_ten_minutes))
           [ Sample.step (JStr "2018-01-01T00:00:00+00:00");
             Sample.step (JStr "2018-01-01T00:10:00+00:00");
             Sample.step (JStr "marker") ]
           (Sample.step (JStr "2018-01-01T00:00:00+00:00"))
           (Sample.step (JStr "2018-01-01T00:10:00+00:00"))
           "2018-01-01T00:00:00+00:00" "2018-01-01T00:10:00+00:00");
    try reflexivity.
  simpl. lia.
Defined.

(** C8: the code does not do what the claim says. For a trace whose first
    stamp is an integer, [findRuntime] takes the branch for values that are
    not texts, evaluates [int(start_time)] and then the undefined name
    [utc_tz]: it raises [NameError] and returns no runtime. *)
Theorem runtime_epoch_stamp_raises (op : Operation.t) (job : Job.t)
    (time_json : json) (z : Z) (end_time : json) :
  last (Operation.jobs op) = Some job ->
  Job.state job = Ok time_json ->
  trace_stamps time_json = Ok (JInt z, end_time) ->
  findRuntime op = Raise NameError.
Proof.
  intros Hj Hs Ht. rewrite (findRuntime_stamps op job _ _ _ Hj Hs Ht). reflexivity.
Qed.

Lemma runtime_epoch_stamp_raises_witness :
  findRuntime Sample.op_epoch = Raise NameError.
Proof.
  apply (runtime_epoch_stamp_raises Sample.op_epoch
           (Job.mk (Some 2) [7; 8] (Ok Sample.trace_epoch))
           Sample.trace_epoch 1514764800 (JInt 1514765400));
    reflexivity.
Defined.

(** The same ten minutes written as texts give a runtime. *)
Example runtime_of_the_same_instants_as_texts :
  findRuntime Sample.op_done = Ok (VFloat 10)
  /\ findRuntime Sample.op_epoch = Raise NameError.
Proof. split; vm_compute; reflexivity. Qed.

(** ** The fields that depend on the runtime *)

Lemma is_zero_not_truthy (v : pyval) : is_zero v = true -> truthy v = false.
Proof.
  destruct v as [| b | z | f | s]; simpl; intros H; try discriminate.
  - destruct b; [ discriminate | reflexivity ].
  - rewrite H. reflexivity.
  - rewrite H. reflexivity.
Qed.

Lemma done_with_runtime_read (self : DAMPAqData.t) (s r : pyval) :
  row_so_far self "Status" = Ok s ->
  row_so_far self "Runtime" = Ok r ->
  done_with_runtime self = Ok (eq_str s "done" && truthy r).
Proof.
  intros Hs Hr. unfold done_with_runtime. rewrite Hs. cbn [bind].
  destruct (eq_str s "done"); [ rewrite Hr | ]; reflexivity.
Qed.

(** When the guard is false each of the four fields is the empty string. *)
Lemma findData_dependent_empty (self : DAMPAqData.t) (op : Operation.t)
    (key : string) (l : list pyval) :
  In key runtime_dependents ->
  In key (OUTPUTS self) ->
  op_data self !! key = Some l ->
  done_with_runtime self = Ok false ->
  findData self op key None = Ok (appended self key l (VStr "")).
Proof.
  intros Hk Hin Hl Hg. apply str_in_In in Hin.
  unfold runtime_dependents in Hk. simpl in Hk.
  destruct Hk as [<- | [<- | [<- | [<- | []]]]];
    rule_of_key; rewrite Hg; cbn [bind]; rewrite Hin; now apply appendData_known.
Qed.

(** The runtime of a trace of exactly two steps: the first step is also the
    second-to-last. *)
Lemma findRuntime_two_steps (op : Operation.t) (job : Job.t) (first second : json)
    (s : string) (d : datetime.t) :
  last (Operation.jobs op) = Some job ->
  Job.state job = Ok (JArr [first; second]) ->
  subscript_str first "time" = Ok (JStr s) ->
  strptime.parse s = Ok d ->
  findRuntime op = Ok (VFloat 0).
Proof.
  intros Hj Hs Ht Hp.
  rewrite (findRuntime_strings op job (JArr [first; second]) s s d d Hj Hs); try assumption.
  - unfold datetime_sub, minutes, timedelta.make. simpl.
    rewrite !Z.sub_diag. reflexivity.
  - now apply (trace_stamps_first_and_second_to_last [first; second] first first).
Qed.

(** C6 (as amended): with "Status" equal to "done", a runtime [R] in the
    row that is true as a condition (not empty and not zero) and the
    hands-off time [H] in the row, the "Hands-on Time" field is the value of
    [R - H]. *)
Theorem hands_on_time_is_difference (self : DAMPAqData.t) (op : Operation.t)
    (l : list pyval) (R H v : pyval) :
  In "Hands-on Time" (OUTPUTS self) ->
  op_data self !! "Hands-on Time" = Some l ->
  row_so_far self "Status" = Ok (VStr "done") ->
  row_so_far self "Runtime" = Ok R ->
  truthy R = true ->
  row_so_far self "Hands-off Time" = Ok H ->
  py_sub R H = Ok v ->
  findData self op "Hands-on Time" None = Ok (appended self "Hands-on Time" l v).
Proof.
  intros Hin Hl Hs Hr Ht Hh Hv. apply str_in_In in Hin.
  rule_of_key. rewrite (done_with_runtime_read self _ _ Hs Hr), Ht.
  cbn [eq_str String.eqb Ascii.eqb Bool.eqb andb bind].
  rewrite Hr. cbn [bind]. rewrite Hh. cbn [bind]. rewrite Hv. cbn [bind].
  rewrite Hin. now apply appendData_known.
Qed.

(** C7: for a record whose trace has fewer than two steps the "Runtime"
    field is the empty string, whatever the status in the row; and with an
    empty runtime in the row each of "Hands-on Time", "Hands-on Time/Job",
    "Cost/Minute (Total)" and "Cost/Minute (Hands-on)" is the empty string. *)
Theorem short_trace_empties_runtime_fields (op : Operation.t) (job : Job.t)
    (items : list json) :
  last (Operation.jobs op) = Some job ->
  Job.state job = Ok (JArr items) ->
  (length items < 2)%nat ->
  (forall (self : DAMPAqData.t) (s : pyval) (l : list pyval),
      row_so_far self "Status" = Ok s ->
      In "Runtime" (OUTPUTS self) ->
      op_data self !! "Runtime" = Some l ->
      findData self op "Runtime" None = Ok (appended self "Runtime" l (VStr "")))
  /\ (forall (self : DAMPAqData.t) (s : pyval) (key : string) (l : list pyval),
        row_so_far self "Status" = Ok s ->
        row_so_far self "Runtime" = Ok (VStr "") ->
        In key runtime_dependents ->
        In key (OUTPUTS self) ->
        op_data self !! key = Some l ->
        findData self op key None = Ok (appended self key l (VStr ""))).
Proof.
  intros Hj Hst Hlen. split.
  - intros self s l Hs Hin Hl. apply str_in_In in Hin.
    rule_of_key. rewrite Hs. cbn [bind].
    rewrite (findRuntime_short_trace op job items Hj Hst Hlen).
    destruct (eq_str s "done"); cbn [bind]; rewrite Hin; now apply appendData_known.
  - intros self s key l Hs Hr Hk Hin Hl.
    apply findData_dependent_empty; try assumption.
    rewrite (done_with_runtime_read self _ _ Hs Hr). simpl.
    now rewrite andb_false_r.
Qed.

Lemma short_trace_empties_runtime_fields_witness :
  findData (Sample.with_status ["Status"; "Runtime"] (VStr "done")) Sample.op_one_step
    "Runtime" None
  = Ok (appended (Sample.with_status ["Status"; "Runtime"] (VStr "done")) "Runtime" []
          (VStr "")).
Proof.
  apply (proj1 (short_trace_empties_runtime_fields Sample.op_one_step
                  (Job.mk (Some 2) [7; 8] (Ok Sample.trace_one_step))
                  [Sample.step (JStr "2018-01-01T00:00:00+00:00")]
                  ltac:(reflexivity) ltac:(reflexivity) ltac:(simpl; lia))
           (Sample.with_status ["Status"; "Runtime"] (VStr "done")) (VStr "done") []).
  - reflexivity.
  - simpl. auto.
  - reflexivity.
Defined.

(** The whole row of such a record. *)
Example short_trace_row :
  let r := collectRows (Sample.ready Sample.runtime_outputs) [Sample.op_one_step] in
  column r "Runtime" = Ok [VStr ""]
  /\ column r "Hands-on Time" = Ok [VStr ""]
  /\ column r "Hands-on Time/Job" = Ok [VStr ""]
  /\ column r "Cost/Minute (Total)" = Ok [VStr ""]
  /\ column r "Cost/Minute (Hands-on)" = Ok [VStr ""].
Proof. repeat split; vm_compute; reflexivity. Qed.

(** C10: with "Status" equal to "done" and a runtime in the row that equals
    zero, each of the four dependent fields is the empty string; and a trace
    of exactly two steps, whose first stamp parses, has the runtime 0.0. *)
Theorem zero_runtime_empties_dependent_fields :
  (forall (self : DAMPAqData.t) (op : Operation.t) (key : string)
          (l : list pyval) (R : pyval),
      In key runtime_dependents ->
      In key (OUTPUTS self) ->
      op_data self !! key = Some l ->
      row_so_far self "Status" = Ok (VStr "done") ->
      row_so_far self "Runtime" = Ok R ->
      is_zero R = true ->
      findData self op key None = Ok (appended self key l (VStr "")))
  /\ (forall (op : Operation.t) (job : Job.t) (first second : json)
             (s : string) (d : datetime.t),
        last (Operation.jobs op) = Some job ->
        Job.state job = Ok (JArr [first; second]) ->
        subscript_str first "time" = Ok (JStr s) ->
        strptime.parse s = Ok d ->
        findRuntime op = Ok (VFloat 0) /\ is_zero (VFloat 0) = true).
Proof.
  split.
  - intros self op key l R Hk Hin Hl Hs Hr Hz.
    apply findData_dependent_empty; try assumption.
    rewrite (done_with_runtime_read self _ _ Hs Hr), (is_zero_not_truthy R Hz).
    reflexivity.
  - intros op job first second s d Hj Hst Ht Hp. split; [ | reflexivity ].
    now apply (findRuntime_two_steps op job first second s d).
Qed.

Lemma zero_runtime_empties_dependent_fields_witness :
  findData
    (Sample.with_row Sample.runtime_outputs
       [("Status", VStr "done"); ("Runtime", VFloat 0); ("Hands-off Time", VInt 4)])
    Sample.op_two_steps "Hands-on Time" None
  = Ok (appended
          (Sample.with_row Sample.runtime_outputs
             [("Status", VStr "done"); ("Runtime", VFloat 0); ("Hands-off Time", VInt 4)])
          "Hands-on Time" [] (VStr "")).
Proof.
  apply (proj1 zero_runtime_empties_dependent_fields
           (Sample.with_row Sample.runtime_outputs
              [("Status", VStr "done"); ("Runtime", VFloat 0); ("Hands-off Time", VInt 4)])
           Sample.op_two_steps "Hands-on Time" [] (VFloat 0)).
  - simpl. auto.
  - simpl. auto 10.
  - reflexivity.
  - reflexivity.
  - reflexivity.
  - reflexivity.
Defined.

Lemma hands_on_time_is_difference_witness :
  findData
    (Sample.with_row Sample.runtime_outputs
       [("Status", VStr "done"); ("Runtime", VFloat 10); ("Hands-off Time", VInt 4)])
    Sample.op_done "Hands-on Time" None
  = Ok (appended
          (Sample.with_row Sample.runtime_outputs
             [("Status", VStr "done"); ("Runtime", VFloat 10); ("Hands-off Time", VInt 4)])
          "Hands-on Time" [] (VFloat 6)).
Proof.
  apply (hands_on_time_is_difference
           (Sample.with_row Sample.runtime_outputs
              [("Status", VStr "done"); ("Runtime", VFloat 10); ("Hands-off Time", VInt 4)])
           Sample.op_done [] (VFloat 10) (VInt 4) (VFloat 6)).
  - simpl. auto 10.
  - reflexivity.
  - reflexivity.
  - reflexivity.
  - reflexivity.
  - reflexivity.
  - reflexivity.
Defined.

(** C6, as stated, fails at a runtime of zero: the record is "done", its
    trace of two steps gives the runtime 0.0, the hands-off time is 4, and
    the "Hands-on Time" field is the empty string, not [0.0 - 4]. *)
Lemma hands_on_time_empty_at_zero_runtime :
  let r := collectRows (Sample.ready Sample.runtime_outputs) [Sample.op_two_steps] in
  column r "Status" = Ok [VStr "done"]
  /\ column r "Runtime" = Ok [VFloat 0]
  /\ column r "Hands-off Time" = Ok [VInt 4]
  /\ py_sub (VFloat 0) (VInt 4) = Ok (VFloat (-4))
  /\ column r "Hands-on Time" = Ok [VStr ""].
Proof. repeat split; vm_compute; reflexivity. Qed.

(** The row of the same record with its other dependent fields. *)
Example zero_runtime_row :
  let r := collectRows (Sample.ready Sample.runtime_outputs) [Sample.op_two_steps] in
  column r "Hands-on Time/Job" = Ok [VStr ""]
  /\ column r "Cost/Minute (Total)" = Ok [VStr ""]
  /\ column r "Cost/Minute (Hands-on)" = Ok [VStr ""]
  /\ column r "Total Cost" = Ok [VFloat 5].
Proof. repeat split; vm_compute; reflexivity. Qed.

(** A row in configuration order can still raise: a runtime equal to the
    hands-off time divides by zero. *)
Example hands_on_cost_divides_by_zero :
  findData
    (Sample.with_row Sample.runtime_outputs
       [ ("Status", VStr "done"); ("Runtime", VFloat 4); ("Hands-off Time", VInt 4);
         ("Hands-on Time", VFloat 0); ("Total Cost", VFloat 5) ])
    Sample.op_done "Cost/Minute (Hands-on)" None
  = Raise ZeroDivisionError.
Proof. vm_compute. reflexivity. Qed.

(** ** The record fetcher *)

Lemma generate_filter {A : Type} (test : A -> result bool) (f : A -> bool) (l : list A) :
  (forall x, In x l -> test x = Ok (f x)) ->
  generate test l = Ok (List.filter f l).
Proof.
  induction l as [| x l IH]; intros H; [ reflexivity | ].
  simpl. rewrite (H x (or_introl eq_refl)). cbn [bind].
  rewrite IH by (intros y Hy; apply H; now right). cbn [bind].
  destruct (f x); reflexivity.
Qed.

(** The test of the generator never raises: [op.jobs[-1]] is read only when
    [op.jobs] is not empty. *)
Lemma is_collected_matches (self : DAMPAqData.t) (op : Operation.t) :
  is_collected self op = Ok (matches self op).
Proof.
  unfold is_collected, matches, technician.
  destruct (existsb _ _); [ | reflexivity ].
  destruct (Operation.jobs op) as [| j js] eqn:E; [ reflexivity | ].
  destruct (last (j :: js)) as [job |] eqn:El.
  - rewrite (list_index_last _ _ El). reflexivity.
  - apply last_None in El. discriminate.
Qed.

Lemma matches_spec (self : DAMPAqData.t) (op : Operation.t) :
  matches self op = true <-> owner_resolved self op /\ has_technician op.
Proof.
  unfold matches, owner_resolved, has_technician.
  rewrite andb_true_iff, existsb_exists. split.
  - intros [(k & Hk & E) Ht]. apply Z.eqb_eq in E. subst k. split; [ assumption | ].
    destruct (technician op) as [u |]; [ | discriminate ].
    exists u. split; [ reflexivity | ].
    apply negb_true_iff, Z.eqb_neq in Ht. assumption.
  - intros [Ho (u & -> & Hu)]. split.
    + exists (Operation.user_id op). split; [ assumption | apply Z.eqb_refl ].
    + apply negb_true_iff, Z.eqb_neq. assumption.
Qed.

(** C9 (as amended): the fetcher yields, in the store's order, exactly the
    operations of the protocol whose own user identifier ([op.user_id]) is
    one of the resolved user identifiers and whose most recent job exists
    and has a technician identifier that is neither [None] nor zero; the
    time argument does not matter. *)
Theorem fetcher_filters_by_owner (self : DAMPAqData.t) (protocol_key : Z)
    (ot : OperationType.t) :
  AqSession.OperationType_find (session self) protocol_key = Some ot ->
  (forall time : Z,
      collectOperations self protocol_key time
      = Ok (List.filter (matches self) (OperationType.operations ot)))
  /\ (forall op : Operation.t,
        matches self op = true <-> owner_resolved self op /\ has_technician op).
Proof.
  intros Hf. split.
  - intros time. unfold collectOperations. rewrite Hf. cbn [attr bind].
    apply generate_filter. intros op _. apply is_collected_matches.
  - apply matches_spec.
Qed.

Lemma fetcher_filters_by_owner_witness :
  collectOperations (Sample.instance []) 5 14 = Ok [Sample.op_done].
Proof.
  apply (proj1 (fetcher_filters_by_owner (Sample.instance []) 5
                  (OperationType.mk 5 "Check Plate" true
                     [Sample.op_done; Sample.op_other_owner])
                  ltac:(reflexivity)) 14).
Defined.

(** C9, as stated, fails: with user 1 resolved, the fetcher yields the
    record owned by user 1 whose technician is user 2, and drops the record
    owned by user 3 whose technician is user 1. *)
Lemma fetcher_ignores_the_technician :
  collectOperations (Sample.instance []) 5 14 = Ok [Sample.op_done]
  /\ USER_KEYS (Sample.instance []) = [1]
  /\ technician Sample.op_done = Some 2
  /\ Operation.user_id Sample.op_done = 1
  /\ technician Sample.op_other_owner = Some 1
  /\ Operation.user_id Sample.op_other_owner = 3.
Proof. repeat split; vm_compute; reflexivity. Qed.

(** ** The accumulator over a run *)

Lemma accumulator_lengths_witness :
  exists self',
    collectRows (createEmptyDict (Sample.instance ["ID"; "Status"]))
      [Sample.op_done; Sample.op_crash] = Ok self'
    /\ column_length self' "Status" = Some 2%nat.
Proof.
  destruct (collectRows (createEmptyDict (Sample.instance ["ID"; "Status"]))
              [Sample.op_done; Sample.op_crash]) as [self' | e] eqn:E.
  - exists self'. split; [ reflexivity | ].
    apply (proj2 (accumulator_lengths (Sample.instance ["ID"; "Status"]) self'
                    [Sample.op_done; Sample.op_crash] "Status" E
                    ltac:(simpl; auto))).
    simpl. repeat constructor; simpl; intuition discriminate.
  - vm_compute in E. discriminate.
Defined.

(** C2, as stated, fails for an output list that names a field twice: after
    one record the field has two values. *)
Lemma repeated_output_doubles_the_column :
  column (collectRows (Sample.ready ["ID"; "ID"]) [Sample.op_done]) "ID"
  = Ok [VInt 7; VInt 7]
  /\ length [Sample.op_done] = 1%nat.
Proof. split; vm_compute; reflexivity. Qed.

(** A whole run over the sample store. *)
Example collectData_sample :
  let r := collectData (Sample.instance ["ID"; "Status"; "Runtime"; "Technician"]) 14 in
  column r "ID" = Ok [VInt 7]
  /\ column r "Status" = Ok [VStr "done"]
  /\ column r "Runtime" = Ok [VFloat 10]
  /\ column r "Technician" = Ok [VStr "bob"].
Proof. repeat split; vm_compute; reflexivity. Qed.

(** * Further properties of the code *)

(** ** The accumulator and the run *)

Lemma findData_returns (self self' : DAMPAqData.t) (op : Operation.t) (key : string)
    (check : option pyval) :
  findData self op key check = Ok self' ->
  exists l v,
    op_data self !! key = Some l
    /\ (self' = appended self key l v
        \/ (str_in key (OUTPUTS self) = false
            /\ self' = print (appended self key l v) (String.append key unknown_message))).
Proof.
  unfold findData. destruct check as [c |].
  - intros H. apply appendData_Ok in H as (l & Hl & ->). exists l, (VStr ""). auto.
  - intros H.
    repeat match type of H with
           | bind _ _ = Ok _ => apply bind_Ok in H as (? & _ & H)
           end.
    destruct (str_in key (OUTPUTS self)) eqn:E.
    + apply appendData_Ok in H as (l & Hl & ->). eauto.
    + apply bind_Ok in H as (s1 & H1 & H). injection H as <-.
      apply appendData_Ok in H1 as (l & Hl & ->). exists l, (VStr ""). auto.
Qed.

Lemma same_configuration_appended (self : DAMPAqData.t) (key : string)
    (l : list pyval) (v : pyval) :
  same_configuration self (appended self key l v).
Proof. unfold same_configuration. simpl. repeat split. Qed.

Lemma same_configuration_trans (a b c : DAMPAqData.t) :
  same_configuration a b -> same_configuration b c -> same_configuration a c.
Proof. unfold same_configuration. intuition congruence. Qed.

Lemma same_configuration_refl (a : DAMPAqData.t) : same_configuration a a.
Proof. unfold same_configuration. repeat split. Qed.

Lemma keyed_by_outputs_appended (self : DAMPAqData.t) (key : string)
    (l : list pyval) (v : pyval) :
  keyed_by_outputs self ->
  op_data self !! key = Some l ->
  keyed_by_outputs (appended self key l v).
Proof.
  intros Hk Hl f. simpl. rewrite <- (Hk f).
  destruct (string_dec key f) as [-> | Hne].
  - rewrite lookup_insert_eq, Hl. split; eauto.
  - rewrite lookup_insert_ne by assumption. reflexivity.
Qed.

(** X1: a value appended to a field is what the next read of that field in
    the row gives; the lists of the other fields and the rest of the
    instance are untouched. *)
Theorem appendData_then_row_so_far (self self' : DAMPAqData.t) (key : string)
    (value : pyval) :
  appendData self key value = Ok self' ->
  row_so_far self' key = Ok value
  /\ (forall f, f <> key -> op_data self' !! f = op_data self !! f)
  /\ same_configuration self self'.
Proof.
  intros H. apply appendData_Ok in H as (l & Hl & ->). split; [ | split ].
  - unfold row_so_far. simpl. rewrite lookup_insert_eq.
    apply list_index_last, last_snoc.
  - intros f Hf. simpl. now rewrite lookup_insert_ne by congruence.
  - apply (same_configuration_appended self key l value).
Qed.

Lemma appendData_then_row_so_far_witness :
  exists self',
    appendData (Sample.ready ["ID"; "Status"]) "ID" (VInt 7) = Ok self'
    /\ row_so_far self' "ID" = Ok (VInt 7).
Proof.
  exists (appended (Sample.ready ["ID"; "Status"]) "ID" [] (VInt 7)).
  split; [ reflexivity | ].
  apply (appendData_then_row_so_far (Sample.ready ["ID"; "Status"]) _ "ID" (VInt 7)).
  reflexivity.
Defined.

(** X2: in a run, where the accumulator is keyed by the configured outputs,
    a call of [findData] that returns keeps it so, changes nothing of the
    instance but the accumulator (in particular it prints nothing), and was
    made for a configured output. *)
Theorem findData_keeps_the_run_invariant (self self' : DAMPAqData.t)
    (op : Operation.t) (key : string) (check : option pyval) :
  keyed_by_outputs self ->
  findData self op key check = Ok self' ->
  keyed_by_outputs self' /\ same_configuration self self' /\ In key (OUTPUTS self).
Proof.
  intros Hk H. apply findData_returns in H as (l & v & Hl & [-> | [Hout ->]]).
  - split; [ now apply keyed_by_outputs_appended | ]. split.
    + apply same_configuration_appended.
    + apply Hk. eauto.
  - exfalso. apply str_in_not_In in Hout. apply Hout, Hk. eauto.
Qed.

Lemma findData_keeps_the_run_invariant_witness :
  exists self',
    findData (Sample.ready ["ID"; "Status"]) Sample.op_done "ID" None = Ok self'
    /\ keyed_by_outputs self'
    /\ same_configuration (Sample.ready ["ID"; "Status"]) self'.
Proof.
  exists (appended (Sample.ready ["ID"; "Status"]) "ID" [] (VInt 7)).
  split; [ reflexivity | ].
  destruct (findData_keeps_the_run_invariant
              (Sample.ready ["ID"; "Status"])
              (appended (Sample.ready ["ID"; "Status"]) "ID" [] (VInt 7))
              Sample.op_done "ID" None
              (createEmptyDict_keyed _) ltac:(reflexivity)) as (H1 & H2 & _).
  split; assumption.
Defined.

Lemma row_keeps_configuration (op : Operation.t) (outs : list string) :
  forall self self' : DAMPAqData.t,
    keyed_by_outputs self ->
    for_each outs (fun self o => findData self op o None) self = Ok self' ->
    keyed_by_outputs self' /\ same_configuration self self'.
Proof.
  induction outs as [| o outs IH]; intros self self' Hk H; simpl in H.
  - injection H as <-. split; [ assumption | apply same_configuration_refl ].
  - apply bind_Ok in H as (s1 & H1 & H).
    destruct (findData_keeps_the_run_invariant _ _ _ _ _ Hk H1) as (Hk1 & Hc1 & _).
    destruct (IH _ _ Hk1 H) as [Hk' Hc'].
    split; [ assumption | now apply (same_configuration_trans self s1 self') ].
Qed.

Lemma rows_keep_configuration (operations : list Operation.t) :
  forall self self' : DAMPAqData.t,
    keyed_by_outputs self ->
    collectRows self operations = Ok self' ->
    keyed_by_outputs self' /\ same_configuration self self'.
Proof.
  unfold collectRows.
  induction operations as [| op ops IH]; intros self self' Hk H; simpl in H.
  - injection H as <-. split; [ assumption | apply same_configuration_refl ].
  - apply bind_Ok in H as (s1 & H1 & H).
    destruct (row_keeps_configuration _ _ _ _ Hk H1) as [Hk1 Hc1].
    destruct (IH _ _ Hk1 H) as [Hk' Hc'].
    split; [ assumption | now apply (same_configuration_trans self s1 self') ].
Qed.

(** X3: [createEmptyDict] forgets the rows of the protocol before: after any
    number of records, it gives the accumulator it gave at the start, with
    no value in any field. *)
Theorem createEmptyDict_forgets_the_rows (self self' : DAMPAqData.t)
    (operations : list Operation.t) :
  collectRows (createEmptyDict self) operations = Ok self' ->
  op_data (createEmptyDict self') = op_data (createEmptyDict self)
  /\ (forall f, In f (OUTPUTS self) -> column_length (createEmptyDict self') f = Some 0%nat).
Proof.
  intros H.
  destruct (rows_column_length operations "" _ _ H) as [HO _].
  change (OUTPUTS (createEmptyDict self)) with (OUTPUTS self) in HO.
  split.
  - unfold createEmptyDict. simpl. now rewrite HO.
  - intros f Hf. unfold column_length. rewrite createEmptyDict_lookup, HO.
    apply str_in_In in Hf. now rewrite Hf.
Qed.

Lemma createEmptyDict_forgets_the_rows_witness :
  exists self',
    collectRows (createEmptyDict (Sample.instance ["ID"; "Status"]))
      [Sample.op_done; Sample.op_crash] = Ok self'
    /\ column_length (createEmptyDict self') "ID" = Some 0%nat.
Proof.
  destruct (collectRows (createEmptyDict (Sample.instance ["ID"; "Status"]))
              [Sample.op_done; Sample.op_crash]) as [self' | e] eqn:E.
  - exists self'. split; [ reflexivity | ].
    apply (proj2 (createEmptyDict_forgets_the_rows
                    (Sample.instance ["ID"; "Status"]) self'
                    [Sample.op_done; Sample.op_crash] E)).
    simpl. auto.
  - vm_compute in E. discriminate.
Defined.

(** ** [findKeys] *)

Lemma for_each_app {A S : Type} (l1 l2 : list A) (body : S -> A -> result S) (s : S) :
  for_each (l1 ++ l2) body s = (s' <- for_each l1 body s ;; for_each l2 body s').
Proof.
  revert s; induction l1 as [| x l1 IH]; intros s; simpl; [ reflexivity | ].
  destruct (body s x); simpl; auto.
Qed.

(** A loop that appends one looked-up value per element, or raises [e] at
    the first element that has none. *)
Lemma for_each_gather {A B : Type} (g : A -> option B) (e : exn)
    (body : list B -> A -> result (list B)) :
  (forall acc x, body acc x = match g x with
                              | Some k => Ok (acc ++ [k])
                              | None => Raise e
                              end) ->
  forall (l : list A) (acc : list B),
    for_each l body acc = match mapM g l with
                          | Some ks => Ok (acc ++ ks)
                          | None => Raise e
                          end.
Proof.
  intros Hb. induction l as [| x l IH]; intros acc; simpl.
  - now rewrite app_nil_r.
  - rewrite Hb. destruct (g x) as [k |]; simpl; [ | reflexivity ].
    rewrite IH. destruct (mapM g l) as [ks |]; simpl; [ | reflexivity ].
    now rewrite <- app_assoc.
Qed.

Lemma list_index_last_None {A : Type} (l : list A) :
  last l = None -> list_index l (-1) = Raise IndexError.
Proof.
  intros H. apply last_None in H. subst l. reflexivity.
Qed.

(** [findKeys], told by the two look-ups. *)
Lemma findKeys_resolves (self : DAMPAqData.t) :
  findKeys self
  = match mapM (resolve_user (session self)) (USERS self) with
    | None => Raise AttributeError
    | Some uk =>
        match mapM (resolve_protocol (session self)) (PROTOCOLS self) with
        | None => Raise IndexError
        | Some pk => Ok (set_keys self uk pk)
        end
    end.
Proof.
  unfold findKeys.
  rewrite (for_each_gather (resolve_user (session self)) AttributeError).
  2:{ intros acc x. unfold resolve_user, attr.
      destruct (AqSession.User_find_by_name (session self) x); reflexivity. }
  destruct (mapM (resolve_user (session self)) (USERS self)) as [uk |];
    cbn [bind]; [ | reflexivity ].
  rewrite (for_each_gather (resolve_protocol (session self)) IndexError).
  2:{ intros acc x. unfold resolve_protocol.
      destruct (last (AqSession.OperationType_where (session self) x)) as [ot |] eqn:E.
      - rewrite (list_index_last _ _ E). reflexivity.
      - rewrite (list_index_last_None _ E). reflexivity. }
  destruct (mapM (resolve_protocol (session self)) (PROTOCOLS self)); reflexivity.
Qed.

(** X4: when [findKeys] returns, the user keys are, name by name, the
    identifier of the first user of the store with that name, the protocol
    keys are, name by name, the identifier of the last deployed operation
    type with that name, and nothing else of the instance has changed. *)
Theorem findKeys_keys (self self' : DAMPAqData.t) :
  findKeys self = Ok self' ->
  Forall2 (fun user k => resolve_user (session self) user = Some k)
    (USERS self) (USER_KEYS self')
  /\ Forall2 (fun protocol k => resolve_protocol (session self) protocol = Some k)
       (PROTOCOLS self) (PROTOCOL_KEYS self')
  /\ self' = set_keys self (USER_KEYS self') (PROTOCOL_KEYS self').
Proof.
  rewrite findKeys_resolves.
  destruct (mapM (resolve_user _) _) as [uk |] eqn:Eu; [ | discriminate ].
  destruct (mapM (resolve_protocol _) _) as [pk |] eqn:Ep; [ | discriminate ].
  intros H. injection H as <-. simpl.
  split; [ now apply mapM_Some_1 | ]. split; [ now apply mapM_Some_1 | reflexivity ].
Qed.

Lemma findKeys_keys_witness :
  exists self',
    findKeys (Sample.instance []) = Ok self'
    /\ Forall2 (fun user k => resolve_user Sample.store user = Some k)
         ["alice"] (USER_KEYS self').
Proof.
  exists (set_keys (Sample.instance []) [1] [5]). split; [ reflexivity | ].
  apply (findKeys_keys (Sample.instance []) (set_keys (Sample.instance []) [1] [5])).
  reflexivity.
Defined.

(** X5: [findKeys] raises [AttributeError] when a configured user name has
    no user in the store, whatever the protocols are; with every user found
    it raises [IndexError] when a configured protocol has no deployed
    operation type; and it returns when every name resolves. *)
Theorem findKeys_failures (self : DAMPAqData.t) :
  (Exists (fun user => resolve_user (session self) user = None) (USERS self) ->
   findKeys self = Raise AttributeError)
  /\ (Forall (fun user => is_Some (resolve_user (session self) user)) (USERS self) ->
      Exists (fun protocol => resolve_protocol (session self) protocol = None)
        (PROTOCOLS self) ->
      findKeys self = Raise IndexError)
  /\ (Forall (fun user => is_Some (resolve_user (session self) user)) (USERS self) ->
      Forall (fun protocol => is_Some (resolve_protocol (session self) protocol))
        (PROTOCOLS self) ->
      exists self', findKeys self = Ok self').
Proof.
  rewrite findKeys_resolves. split; [ | split ].
  - intros H. apply mapM_None_2 in H. now rewrite H.
  - intros Hu Hp. apply mapM_is_Some_2 in Hu as [uk ->].
    apply mapM_None_2 in Hp. now rewrite Hp.
  - intros Hu Hp. apply mapM_is_Some_2 in Hu as [uk ->].
    apply mapM_is_Some_2 in Hp as [pk ->]. eauto.
Qed.

Lemma findKeys_failures_witness :
  findKeys
    (DAMPAqData.mk ["alice"; "dave"] ["Check Plate"] [] [] [VInt 4] ["ID"]
       [VFloat 2.5] [] Sample.store ∅ [] [])
  = Raise AttributeError.
Proof.
  apply (proj1 (findKeys_failures
                  (DAMPAqData.mk ["alice"; "dave"] ["Check Plate"] [] [] [VInt 4] ["ID"]
                     [VFloat 2.5] [] Sample.store ∅ [] []))).
  apply Exists_cons_tl, Exists_cons_hd. reflexivity.
Defined.

(** ** [collectData] *)

Lemma collectOperations_Ok (self : DAMPAqData.t) (protocol_key time : Z)
    (ops : list Operation.t) :
  collectOperations self protocol_key time = Ok ops ->
  exists ot,
    AqSession.OperationType_find (session self) protocol_key = Some ot
    /\ ops = List.filter (matches self) (OperationType.operations ot).
Proof.
  unfold collectOperations.
  destruct (AqSession.OperationType_find (session self) protocol_key) as [ot |];
    cbn [attr bind]; [ | discriminate ].
  rewrite (generate_filter (is_collected self) (matches self))
    by (intros op _; apply is_collected_matches).
  intros H. injection H as <-. eauto.
Qed.

Lemma column_length_after_rows (self self' : DAMPAqData.t)
    (operations : list Operation.t) (f : string) :
  collectRows (createEmptyDict self) operations = Ok self' ->
  In f (OUTPUTS self) ->
  column_length self' f
  = Some (length operations * count_occ string_dec (OUTPUTS self) f)%nat.
Proof.
  intros H Hf.
  destruct (rows_column_length _ f _ _ H) as [_ HL].
  change (OUTPUTS (createEmptyDict self)) with (OUTPUTS self) in HL.
  unfold column_length in HL at 2. rewrite createEmptyDict_lookup in HL.
  apply str_in_In in Hf. rewrite Hf in HL. exact HL.
Qed.

(** X6: when [collectProtocol] returns, it has handed one table to the
    spreadsheet, after the ones handed over before: under the name of the
    operation type with the protocol's key, the accumulator holding the
    rows of the operations the filter lets through and of no other, so a
    field listed once has one value per such operation. *)
Theorem collectProtocol_writes_its_rows (time : Z) (self self' : DAMPAqData.t) (p : Z) :
  collectProtocol time self p = Ok self' ->
  exists ot,
    AqSession.OperationType_find (session self) p = Some ot
    /\ written self' = written self ++ [(OperationType.name ot, op_data self')]
    /\ (forall f,
          In f (OUTPUTS self) ->
          column_length self' f
          = Some (length (List.filter (matches self) (OperationType.operations ot))
                  * count_occ string_dec (OUTPUTS self) f)%nat).
Proof.
  unfold collectProtocol. intros H.
  apply bind_Ok in H as (ops & Hops & H).
  apply bind_Ok in H as (s2 & Hrows & H).
  apply bind_Ok in H as (n & Hn & H). injection H as <-.
  apply collectOperations_Ok in Hops as (ot & Hot & ->).
  change (session (createEmptyDict self)) with (session self) in Hot.
  destruct (rows_keep_configuration _ _ _ (createEmptyDict_keyed self) Hrows)
    as [_ Hc].
  destruct Hc as (_ & _ & _ & _ & _ & _ & _ & _ & Hs & _ & Hw). simpl in Hs, Hw.
  rewrite <- Hs, Hot in Hn. simpl in Hn. injection Hn as <-.
  exists ot. split; [ assumption | ]. split.
  - unfold writeData. simpl. now rewrite <- Hw.
  - intros f Hf. change (column_length (writeData s2 (OperationType.name ot)) f)
      with (column_length s2 f).
    apply (column_length_after_rows self s2 _ f Hrows Hf).
Qed.

Lemma collectProtocol_writes_its_rows_witness :
  exists self' ot,
    collectProtocol 14 (Sample.instance ["ID"; "Status"]) 5 = Ok self'
    /\ AqSession.OperationType_find Sample.store 5 = Some ot
    /\ written self' = [(OperationType.name ot, op_data self')].
Proof.
  destruct (collectProtocol 14 (Sample.instance ["ID"; "Status"]) 5)
    as [self' | e] eqn:E.
  - destruct (collectProtocol_writes_its_rows 14 _ self' 5 E) as (ot & H1 & H2 & _).
    exists self', ot. split; [ reflexivity | ]. split; assumption.
  - vm_compute in E. discriminate.
Defined.

Lemma protocols_written (time : Z) (keys : list Z) :
  forall self self' : DAMPAqData.t,
    for_each keys (collectProtocol time) self = Ok self' ->
    length (written self') = (length (written self) + length keys)%nat
    /\ PROTOCOLS self' = PROTOCOLS self.
Proof.
  induction keys as [| p keys IH]; intros self self' H; simpl in H.
  - injection H as <-. split; [ simpl; lia | reflexivity ].
  - apply bind_Ok in H as (s1 & H1 & H).
    destruct (IH _ _ H) as [Hl Hp]. rewrite Hl, Hp. clear IH H Hl Hp.
    pose proof H1 as H1'.
    apply collectProtocol_writes_its_rows in H1 as (ot & _ & Hw & _).
    rewrite Hw, length_app. simpl. split; [ lia | ].
    unfold collectProtocol in H1'.
    apply bind_Ok in H1' as (ops & _ & H).
    apply bind_Ok in H as (s2 & Hrows & H).
    apply bind_Ok in H as (n & _ & H). injection H as <-.
    destruct (rows_keep_configuration _ _ _ (createEmptyDict_keyed self) Hrows)
      as [_ (_ & Hp & _)]. simpl in Hp. simpl. congruence.
Qed.

(** X7: when [collectData] returns, it has handed the spreadsheet exactly
    one table for each configured protocol. *)
Theorem collectData_one_table_per_protocol (self self' : DAMPAqData.t) (time : Z) :
  collectData self time = Ok self' ->
  length (written self') = (length (written self) + length (PROTOCOLS self))%nat.
Proof.
  unfold collectData. intros H. apply bind_Ok in H as (s1 & Hk & H).
  apply findKeys_keys in Hk as (_ & Hp & E).
  apply Forall2_length in Hp.
  apply protocols_written in H as [H _]. rewrite H, <- Hp.
  rewrite E. reflexivity.
Qed.

Lemma collectData_one_table_per_protocol_witness :
  exists self',
    collectData (Sample.instance ["ID"; "Status"]) 14 = Ok self'
    /\ length (written self') = 1%nat.
Proof.
  destruct (collectData (Sample.instance ["ID"; "Status"]) 14) as [self' | e] eqn:E.
  - exists self'. split; [ reflexivity | ].
    apply (collectData_one_table_per_protocol _ self' 14 E).
  - vm_compute in E. discriminate.
Defined.

(** X8: a record for which a field raises ends the protocol there: the
    records after it are not processed, the exception leaves
    [collectProtocol], and no table is handed to the spreadsheet. *)
Theorem failing_record_aborts_the_protocol (time : Z) (self s1 : DAMPAqData.t) (p : Z)
    (before after : list Operation.t) (op : Operation.t) (e : exn) :
  collectOperations (createEmptyDict self) p time = Ok (before ++ op :: after) ->
  collectRows (createEmptyDict self) before = Ok s1 ->
  for_each (OUTPUTS s1) (fun self o => findData self op o None) s1 = Raise e ->
  collectProtocol time self p = Raise e.
Proof.
  intros Hops Hb He. unfold collectProtocol. rewrite Hops. cbn [bind].
  unfold collectRows in *. rewrite for_each_app, Hb. cbn [bind for_each].
  rewrite He. reflexivity.
Qed.

Lemma failing_record_aborts_the_protocol_witness :
  collectProtocol 14 Fixture.instance_with_epoch 5 = Raise NameError.
Proof.
  apply (failing_record_aborts_the_protocol 14 Fixture.instance_with_epoch
           (appended
              (appended (createEmptyDict Fixture.instance_with_epoch) "Status" []
                 (VStr "done"))
              "Runtime" [] (VFloat 10))
           5 [Sample.op_done] [Sample.op_crash] Sample.op_epoch NameError).
  - reflexivity.
  - vm_compute. reflexivity.
  - vm_compute. reflexivity.
Defined.

(** ** The rules of [findData] that the claims leave out *)

(** X9: a status other than "error" is recorded as it is, whatever data
    associations the record carries. *)
Theorem status_verbatim_unless_error (self : DAMPAqData.t) (op : Operation.t)
    (l : list pyval) :
  In "Status" (OUTPUTS self) ->
  op_data self !! "Status" = Some l ->
  Operation.status op <> "error" ->
  findData self op "Status" None
  = Ok (appended self "Status" l (VStr (Operation.status op))).
Proof.
  intros Hin Hl Hs. rewrite (findData_Status self op l Hin Hl).
  apply String.eqb_neq in Hs. rewrite Hs.
  destruct (Operation.data_associations op); reflexivity.
Qed.

Lemma status_verbatim_unless_error_witness :
  findData (Sample.ready ["Status"])
    (Sample.operation "pending" 1 (Some 2) Sample.trace_ten_minutes
       [DataAssociation.mk "job_crash" (VStr "RuntimeError")])
    "Status" None
  = Ok (appended (Sample.ready ["Status"]) "Status" [] (VStr "pending")).
Proof.
  apply (status_verbatim_unless_error (Sample.ready ["Status"])
           (Sample.operation "pending" 1 (Some 2) Sample.trace_ten_minutes
              [DataAssociation.mk "job_crash" (VStr "RuntimeError")]) []).
  - simpl. auto.
  - reflexivity.
  - discriminate.
Defined.

(** X10: when the status in the row is not "done", "Runtime" and
    "Hands-off Time" are empty for every record: the jobs, the trace and the
    protocol tables are not looked at, so nothing about them can raise. *)
Theorem not_done_skips_runtime_and_hands_off (self : DAMPAqData.t) (op : Operation.t)
    (key : string) (l : list pyval) (s : pyval) :
  In key ["Runtime"; "Hands-off Time"] ->
  In key (OUTPUTS self) ->
  op_data self !! key = Some l ->
  row_so_far self "Status" = Ok s ->
  eq_str s "done" = false ->
  findData self op key None = Ok (appended self key l (VStr "")).
Proof.
  intros Hk Hin Hl Hs Hd. apply str_in_In in Hin. simpl in Hk.
  destruct Hk as [<- | [<- | []]];
    rule_of_key; rewrite Hs; cbn [bind]; rewrite Hd; cbn [bind];
    rewrite Hin; now apply appendData_known.
Qed.

Lemma not_done_skips_runtime_and_hands_off_witness :
  findData (Sample.with_status ["Status"; "Runtime"] (VStr "crashed"))
    (Operation.mk 7 "" "error" 1 "Unknown Protocol" [] [] []) "Runtime" None
  = Ok (appended (Sample.with_status ["Status"; "Runtime"] (VStr "crashed"))
          "Runtime" [] (VStr "")).
Proof.
  apply (not_done_skips_runtime_and_hands_off
           (Sample.with_status ["Status"; "Runtime"] (VStr "crashed"))
           (Operation.mk 7 "" "error" 1 "Unknown Protocol" [] [] [])
           "Runtime" [] (VStr "crashed")).
  - simpl. auto.
  - simpl. auto.
  - reflexivity.
  - reflexivity.
  - reflexivity.
Defined.

(** X11: "White Colonies" and "Blue Colonies" are empty when the protocol in
    the row is not "Check Plate", whatever the outputs of the record are,
    even if it has none. *)
Theorem colonies_only_for_check_plate (self : DAMPAqData.t) (op : Operation.t)
    (key : string) (l : list pyval) (p : pyval) :
  In key ["White Colonies"; "Blue Colonies"] ->
  In key (OUTPUTS self) ->
  op_data self !! key = Some l ->
  row_so_far self "Protocol" = Ok p ->
  eq_str p "Check Plate" = false ->
  findData self op key None = Ok (appended self key l (VStr "")).
Proof.
  intros Hk Hin Hl Hp Hc. apply str_in_In in Hin. simpl in Hk.
  destruct Hk as [<- | [<- | []]];
    rule_of_key; rewrite Hp; cbn [bind]; rewrite Hc; cbn [bind];
    rewrite Hin; now apply appendData_known.
Qed.

Lemma colonies_only_for_check_plate_witness :
  findData
    (appended (Sample.ready ["Protocol"; "White Colonies"]) "Protocol" []
       (VStr "Streak Plate"))
    Fixture.op_plate "White Colonies" None
  = Ok (appended
          (appended (Sample.ready ["Protocol"; "White Colonies"]) "Protocol" []
             (VStr "Streak Plate"))
          "White Colonies" [] (VStr "")).
Proof.
  apply (colonies_only_for_check_plate
           (appended (Sample.ready ["Protocol"; "White Colonies"]) "Protocol" []
              (VStr "Streak Plate"))
           Fixture.op_plate "White Colonies" [] (VStr "Streak Plate")).
  - simpl. auto.
  - simpl. auto.
  - reflexivity.
  - reflexivity.
  - reflexivity.
Defined.

Lemma keyed_value_last (k : string) (das : list DataAssociation.t) :
  forall value : pyval,
    keyed_value k value das = default value (last_value_of k das).
Proof.
  unfold keyed_value, last_value_of.
  induction das as [| da das IH]; intros value; [ reflexivity | ].
  cbn [fold_left List.filter]. rewrite IH.
  destruct (String.eqb (DataAssociation.key da) k); [ | reflexivity ].
  rewrite last_cons.
  match goal with |- context [last ?x] => destruct (last x) end; reflexivity.
Qed.

Lemma output_value_last (op : Operation.t) (k : string) (value : pyval) :
  Operation.outputs op <> [] ->
  output_value op k value
  = Ok (default value (last_value_of k (last_item_associations op))).
Proof.
  intros Hne. unfold output_value, last_item_associations.
  destruct (last (Operation.outputs op)) as [out |] eqn:E.
  - rewrite (list_index_last _ _ E). cbn [bind].
    destruct (FieldValue.item out) as [it |]; [ | reflexivity ].
    rewrite <- keyed_value_last.
    destruct (Item.data_associations it); reflexivity.
  - apply last_None in E. contradiction.
Qed.

Lemma output_value_no_outputs (op : Operation.t) (k : string) (value : pyval) :
  Operation.outputs op = [] -> output_value op k value = Raise IndexError.
Proof. unfold output_value. intros ->. reflexivity. Qed.

(** X12: "Concentration Keyword", and under the protocol "Check Plate" the
    two colony counts, are the value of the last data association with the
    field's key on the item of the record's last output; they are empty when
    that output has no item or the item has no such association. *)
Theorem item_field_is_last_association (self : DAMPAqData.t) (op : Operation.t)
    (field k : string) (l : list pyval) :
  In (field, k) item_fields ->
  field = "Concentration Keyword"
  \/ row_so_far self "Protocol" = Ok (VStr "Check Plate") ->
  In field (OUTPUTS self) ->
  op_data self !! field = Some l ->
  Operation.outputs op <> [] ->
  findData self op field None
  = Ok (appended self field l
          (default (VStr "") (last_value_of k (last_item_associations op)))).
Proof.
  intros Hf Hp Hin Hl Hne. apply str_in_In in Hin.
  unfold item_fields in Hf. simpl in Hf.
  destruct Hf as [E | [E | [E | []]]]; injection E as <- <-.
  - rule_of_key. rewrite (output_value_last op _ _ Hne). cbn [bind].
    rewrite Hin. now apply appendData_known.
  - destruct Hp as [Hp | Hp]; [ discriminate | ].
    rule_of_key. rewrite Hp. cbn [bind eq_str].
    change (String.eqb "Check Plate" "Check Plate") with true. cbv iota.
    rewrite (output_value_last op _ _ Hne). cbn [bind].
    rewrite Hin. now apply appendData_known.
  - destruct Hp as [Hp | Hp]; [ discriminate | ].
    rule_of_key. rewrite Hp. cbn [bind eq_str].
    change (String.eqb "Check Plate" "Check Plate") with true. cbv iota.
    rewrite (output_value_last op _ _ Hne). cbn [bind].
    rewrite Hin. now apply appendData_known.
Qed.

Lemma item_field_is_last_association_witness :
  findData
    (appended (Sample.ready ["Protocol"; "White Colonies"]) "Protocol" []
       (VStr "Check Plate"))
    Fixture.op_plate "White Colonies" None
  = Ok (appended
          (appended (Sample.ready ["Protocol"; "White Colonies"]) "Protocol" []
             (VStr "Check Plate"))
          "White Colonies" [] (VInt 15)).
Proof.
  apply (item_field_is_last_association
           (appended (Sample.ready ["Protocol"; "White Colonies"]) "Protocol" []
              (VStr "Check Plate"))
           Fixture.op_plate "White Colonies" "white_colonies" []).
  - simpl. auto.
  - right. reflexivity.
  - simpl. auto.
  - reflexivity.
  - discriminate.
Defined.

(** X13: for a record without outputs the same three rules raise
    [IndexError]: "Concentration Keyword" always, the colony counts under
    the protocol "Check Plate". *)
Theorem item_field_needs_an_output (self : DAMPAqData.t) (op : Operation.t)
    (field k : string) :
  In (field, k) item_fields ->
  field = "Concentration Keyword"
  \/ row_so_far self "Protocol" = Ok (VStr "Check Plate") ->
  Operation.outputs op = [] ->
  findData self op field None = Raise IndexError.
Proof.
  intros Hf Hp Hno.
  unfold item_fields in Hf. simpl in Hf.
  destruct Hf as [E | [E | [E | []]]]; injection E as <- <-.
  - rule_of_key. rewrite (output_value_no_outputs op _ _ Hno). reflexivity.
  - destruct Hp as [Hp | Hp]; [ discriminate | ].
    rule_of_key. rewrite Hp. cbn [bind eq_str].
    change (String.eqb "Check Plate" "Check Plate") with true. cbv iota.
    rewrite (output_value_no_outputs op _ _ Hno). reflexivity.
  - destruct Hp as [Hp | Hp]; [ discriminate | ].
    rule_of_key. rewrite Hp. cbn [bind eq_str].
    change (String.eqb "Check Plate" "Check Plate") with true. cbv iota.
    rewrite (output_value_no_outputs op _ _ Hno). reflexivity.
Qed.

Lemma item_field_needs_an_output_witness :
  findData (Sample.ready ["Concentration Keyword"]) Sample.op_done
    "Concentration Keyword" None
  = Raise IndexError.
Proof.
  apply (item_field_needs_an_output (Sample.ready ["Concentration Keyword"])
           Sample.op_done "Concentration Keyword" "concentration_keyword").
  - simpl. auto.
  - left. reflexivity.
  - reflexivity.
Defined.

(** X14: for a record the filter of [collectOperations] lets through, the
    "Technician" rule finds the most recent job and its technician: it gives
    the name of the user with that identifier, and raises (AttributeError)
    only if the store has no such user. *)
Theorem technician_of_a_collected_record (self : DAMPAqData.t) (op : Operation.t)
    (l : list pyval) :
  matches self op = true ->
  In "Technician" (OUTPUTS self) ->
  op_data self !! "Technician" = Some l ->
  exists u,
    technician op = Some u
    /\ findData self op "Technician" None
       = match AqSession.User_find (session self) u with
         | Some who => Ok (appended self "Technician" l (VStr (User.name who)))
         | None => Raise AttributeError
         end.
Proof.
  intros Hm Hin Hl. apply str_in_In in Hin.
  apply matches_spec in Hm as [_ (u & Hu & _)]. exists u. split; [ assumption | ].
  unfold technician in Hu.
  destruct (last (Operation.jobs op)) as [job |] eqn:Ej; [ | discriminate ].
  simpl in Hu.
  rule_of_key. rewrite (list_index_last _ _ Ej). cbn [bind]. rewrite Hu. cbn [bind].
  destruct (AqSession.User_find (session self) u) as [who |]; cbn [attr bind].
  - rewrite Hin. now apply appendData_known.
  - reflexivity.
Qed.

Lemma technician_of_a_collected_record_witness :
  exists u,
    technician Sample.op_done = Some u
    /\ findData (Sample.ready ["Technician"]) Sample.op_done "Technician" None
       = match AqSession.User_find Sample.store u with
         | Some who =>
             Ok (appended (Sample.ready ["Technician"]) "Technician" []
                   (VStr (User.name who)))
         | None => Raise AttributeError
         end.
Proof.
  apply (technician_of_a_collected_record (Sample.ready ["Technician"])
           Sample.op_done []).
  - reflexivity.
  - simpl. auto.
  - reflexivity.
Defined.

Lemma str_index_first (l : list string) (x : string) :
  In x l ->
  exists i : nat,
    str_index l x = Ok (Z.of_nat i)
    /\ nth_error l i = Some x
    /\ (forall j, (j < i)%nat -> nth_error l j <> Some x).
Proof.
  induction l as [| y l IH]; intros Hin; [ destruct Hin | ].
  simpl. destruct (String.eqb_spec y x) as [-> | Hne].
  - exists 0%nat. split; [ reflexivity | ]. split; [ reflexivity | ]. intros j Hj. lia.
  - destruct Hin as [-> | Hin]; [ contradiction | ].
    destruct (IH Hin) as (i & Hi & Hn & Hfirst). exists (S i).
    rewrite Hi. cbn [bind]. split; [ f_equal; lia | ]. split; [ exact Hn | ].
    intros [| j] Hj; simpl; [ congruence | apply Hfirst; lia ].
Qed.

Lemma str_index_absent (l : list string) (x : string) :
  ~ In x l -> str_index l x = Raise ValueError.
Proof.
  induction l as [| y l IH]; intros Hn; [ reflexivity | ].
  simpl. destruct (String.eqb_spec y x) as [-> | Hne].
  - exfalso. apply Hn. now left.
  - rewrite IH; [ reflexivity | ]. intros H. apply Hn. now right.
Qed.

(** X15: "Cost/Job" is the entry of the cost table at the first position of
    the record's protocol name in the protocol list; it raises [ValueError]
    when the name is not a configured protocol, and [IndexError] when the
    cost table has no entry at that position. *)
Theorem cost_per_job_by_protocol_position (self : DAMPAqData.t) (op : Operation.t)
    (l : list pyval) :
  In "Cost/Job" (OUTPUTS self) ->
  op_data self !! "Cost/Job" = Some l ->
  (~ In (Operation.operation_type_name op) (PROTOCOLS self) ->
   findData self op "Cost/Job" None = Raise ValueError)
  /\ (In (Operation.operation_type_name op) (PROTOCOLS self) ->
      exists i : nat,
        nth_error (PROTOCOLS self) i = Some (Operation.operation_type_name op)
        /\ (forall j, (j < i)%nat ->
                      nth_error (PROTOCOLS self) j
                      <> Some (Operation.operation_type_name op))
        /\ findData self op "Cost/Job" None
           = match nth_error (COSTS self) i with
             | Some c => Ok (appended self "Cost/Job" l c)
             | None => Raise IndexError
             end).
Proof.
  intros Hin Hl. apply str_in_In in Hin. split.
  - intros Hn. rule_of_key. rewrite (str_index_absent _ _ Hn). reflexivity.
  - intros Hp. destruct (str_index_first _ _ Hp) as (i & Hi & Hn & Hfirst).
    exists i. split; [ assumption | ]. split; [ assumption | ].
    rule_of_key. rewrite Hi. cbn [bind].
    destruct (nth_error (COSTS self) i) as [c |] eqn:Ec.
    + rewrite (list_index_nonneg _ _ _ Ec). cbn [bind].
      rewrite Hin. now apply appendData_known.
    + apply nth_error_None in Ec. unfold list_index.
      destruct (Z.ltb_spec (Z.of_nat i) 0) as [Hneg | _]; [ lia | ].
      destruct (Z.ltb_spec (Z.of_nat i) 0) as [Hneg | _]; [ lia | ].
      destruct (Z.leb_spec (Z.of_nat (length (COSTS self))) (Z.of_nat i)) as [_ | Hlt];
        [ reflexivity | lia ].
Qed.

Lemma cost_per_job_by_protocol_position_witness :
  findData (Sample.ready ["Cost/Job"])
    (Operation.mk 7 "" "done" 1 "Streak Plate" [] [] []) "Cost/Job" None
  = Raise ValueError.
Proof.
  apply (proj1 (cost_per_job_by_protocol_position (Sample.ready ["Cost/Job"])
                  (Operation.mk 7 "" "done" 1 "Streak Plate" [] [] []) []
                  ltac:(simpl; auto) ltac:(reflexivity))).
  simpl. intuition discriminate.
Defined.

(** ** Division in the cost fields *)

Lemma row_so_far_raises (self : DAMPAqData.t) (f : string) (e : exn) :
  row_so_far self f = Raise e -> e = KeyError \/ e = IndexError.
Proof.
  unfold row_so_far, list_index.
  destruct (op_data self !! f) as [l |]; [ | intros H; injection H as <-; auto ].
  destruct (_ || _); [ intros H; injection H as <-; auto | ].
  destruct (nth_error _ _); [ discriminate | intros H; injection H as <-; auto ].
Qed.

Lemma done_with_runtime_cases (self : DAMPAqData.t) :
  (exists e, done_with_runtime self = Raise e /\ (e = KeyError \/ e = IndexError))
  \/ done_with_runtime self = Ok false
  \/ (done_with_runtime self = Ok true
      /\ exists r, row_so_far self "Runtime" = Ok r /\ truthy r = true).
Proof.
  unfold done_with_runtime.
  destruct (row_so_far self "Status") as [s | e] eqn:Es; cbn [bind].
  - destruct (eq_str s "done"); [ | auto ].
    destruct (row_so_far self "Runtime") as [r | e] eqn:Er; cbn [bind].
    + destruct (truthy r) eqn:Et; [ | auto ]. right. right. eauto.
    + left. exists e. split; [ reflexivity | now apply (row_so_far_raises self "Runtime") ].
  - left. exists e. split; [ reflexivity | now apply (row_so_far_raises self "Status") ].
Qed.

Lemma to_float_raises (n : number) (e : exn) : to_float n = Raise e -> e = OverflowError.
Proof.
  destruct n as [z | f]; simpl; [ | discriminate ].
  unfold float_of_int. destruct (PrimFloat.is_infinity _); [ | discriminate ].
  intros H. injection H as <-. reflexivity.
Qed.

(** A division raises [ZeroDivisionError] only for a divisor equal to zero. *)
Lemma py_truediv_zero_division (a b : pyval) :
  py_truediv a b = Raise ZeroDivisionError -> is_zero b = true.
Proof.
  unfold py_truediv.
  destruct (as_number a) as [x |]; [ | discriminate ].
  destruct (as_number b) as [y |]; [ | destruct x; discriminate ].
  destruct (is_zero b); [ reflexivity | ].
  intros H. exfalso.
  destruct x as [m | fx], y as [n | fy]; cbn [bind to_float] in H.
  - unfold int_true_divide in H.
    destruct (PrimFloat.is_infinity _); discriminate.
  - destruct (float_of_int m) eqn:E; cbn [bind] in H; [ discriminate | ].
    apply (to_float_raises (NInt m)) in E. congruence.
  - destruct (float_of_int n) eqn:E; cbn [bind] in H; [ discriminate | ].
    apply (to_float_raises (NInt n)) in E. congruence.
  - discriminate.
Qed.

Lemma truthy_not_zero (v : pyval) : truthy v = true -> is_zero v = false.
Proof.
  destruct v as [| b | z | f | s]; simpl; intros H; try reflexivity.
  - now rewrite H.
  - now apply negb_true_iff.
  - now apply negb_true_iff.
Qed.

Lemma appendData_raises (self : DAMPAqData.t) (key : string) (v : pyval) (e : exn) :
  appendData self key v = Raise e -> e = KeyError.
Proof.
  unfold appendData. destruct (op_data self !! key); [ discriminate | ].
  intros H. injection H as <-. reflexivity.
Qed.

(** X16: "Cost/Minute (Total)" never raises [ZeroDivisionError]: the guard
    on the runtime keeps a runtime of zero away from the division. *)
Theorem cost_per_minute_never_divides_by_zero (self : DAMPAqData.t)
    (op : Operation.t) :
  findData self op "Cost/Minute (Total)" None <> Raise ZeroDivisionError.
Proof.
  rule_of_key.
  assert (Hend : forall v,
             (if str_in "Cost/Minute (Total)" (OUTPUTS self)
              then appendData self "Cost/Minute (Total)" v
              else (self' <- appendData self "Cost/Minute (Total)" (VStr "") ;;
                    Ok (print self'
                          (String.append "Cost/Minute (Total)" unknown_message))))
             <> Raise ZeroDivisionError).
  { intros v. destruct (str_in _ _).
    - intros H. apply appendData_raises in H. discriminate.
    - destruct (appendData self _ (VStr "")) eqn:E; cbn [bind]; [ discriminate | ].
      apply appendData_raises in E. congruence. }
  destruct (done_with_runtime_cases self) as [(e & -> & He) | [-> | (-> & r & Hr & Ht)]];
    cbn [bind].
  - destruct He as [-> | ->]; discriminate.
  - apply Hend.
  - destruct (row_so_far self "Total Cost") as [a | e] eqn:Ea; cbn [bind].
    + rewrite Hr. cbn [bind].
      destruct (py_truediv a r) as [v | e] eqn:Ed; cbn [bind]; [ apply Hend | ].
      intros H. injection H as ->.
      apply py_truediv_zero_division in Ed.
      rewrite (truthy_not_zero r Ht) in Ed. discriminate.
    + apply row_so_far_raises in Ea as [-> | ->]; discriminate.
Qed.



(** ** More on [findRuntime] *)

Lemma trace_stamps_of_ends (items : list json) (first before_last : json) :
  (2 <= length items)%nat ->
  nth_error items 0 = Some first ->
  nth_error items (length items - 2) = Some before_last ->
  trace_stamps (JArr items)
  = (start_time <- subscript_str first "time" ;;
     end_time <- subscript_str before_last "time" ;;
     Ok (start_time, end_time)).
Proof.
  intros Hlen H0 H2. unfold trace_stamps, subscript_int.
  pose proof (list_index_nonneg items 0 first H0) as E0.
  pose proof (list_index_from_end items 2 before_last ltac:(lia) H2) as E2.
  change (Z.of_nat 0) with 0 in E0. change (- Z.of_nat 2) with (-2) in E2.
  rewrite E0. cbn [bind].
  destruct (subscript_str first "time"); cbn [bind]; [ | reflexivity ].
  rewrite E2. reflexivity.
Qed.

Lemma findRuntime_of_trace (op : Operation.t) (job : Job.t) (time_json : json) :
  last (Operation.jobs op) = Some job ->
  Job.state job = Ok time_json ->
  findRuntime op
  = match trace_stamps time_json with
    | Raise _ => Ok (VStr "")
    | Ok (start_time, end_time) =>
        start <- to_utc start_time ;;
        end_ <- to_utc end_time ;;
        Ok (minutes (datetime_sub end_ start))
    end.
Proof.
  intros Hj Hs. unfold findRuntime.
  rewrite (list_index_last _ _ Hj). cbn [bind]. rewrite Hs. reflexivity.
Qed.

(** X18: the runtime depends on the trace through its first and its
    second-to-last step only: two records whose traces (of two or more
    steps) agree on these two steps have the same runtime, or raise the same
    exception, whatever the steps in between and the last step are. *)
Theorem runtime_reads_two_steps_only (op op' : Operation.t) (job job' : Job.t)
    (items items' : list json) (first before_last : json) :
  last (Operation.jobs op) = Some job ->
  Job.state job = Ok (JArr items) ->
  last (Operation.jobs op') = Some job' ->
  Job.state job' = Ok (JArr items') ->
  (2 <= length items)%nat ->
  (2 <= length items')%nat ->
  nth_error items 0 = Some first ->
  nth_error items' 0 = Some first ->
  nth_error items (length items - 2) = Some before_last ->
  nth_error items' (length items' - 2) = Some before_last ->
  findRuntime op = findRuntime op'.
Proof.
  intros Hj Hs Hj' Hs' Hl Hl' H0 H0' H2 H2'.
  rewrite (findRuntime_of_trace op job _ Hj Hs),
          (findRuntime_of_trace op' job' _ Hj' Hs').
  rewrite (trace_stamps_of_ends items first before_last Hl H0 H2),
          (trace_stamps_of_ends items' first before_last Hl' H0' H2').
  reflexivity.
Qed.

Lemma runtime_reads_two_steps_only_witness :
  findRuntime Sample.op_done
  = findRuntime
      (Sample.operation "error" 1 (Some 2)
         (JArr [ Sample.step (JStr "2018-01-01T00:00:00+00:00");
                 JNull;
                 Sample.step (JStr "2018-01-01T00:10:00+00:00");
                 JInt 0 ]) []).
Proof.
  apply (runtime_reads_two_steps_only
           Sample.op_done _
           (Job.mk (Some 2) [7; 8] (Ok Sample.trace_ten_minutes))
           (Job.mk (Some 2) [7; 8]
              (Ok (JArr [ Sample.step (JStr "2018-01-01T00:00:00+00:00");
                          JNull;
                          Sample.step (JStr "2018-01-01T00:10:00+00:00");
                          JInt 0 ])))
           [ Sample.step (JStr "2018-01-01T00:00:00+00:00");
             Sample.step (JStr "2018-01-01T00:10:00+00:00");
             Sample.step (JStr "marker") ]
           [ Sample.step (JStr "2018-01-01T00:00:00+00:00");
             JNull;
             Sample.step (JStr "2018-01-01T00:10:00+00:00");
             JInt 0 ]
           (Sample.step (JStr "2018-01-01T00:00:00+00:00"))
           (Sample.step (JStr "2018-01-01T00:10:00+00:00")));
    try reflexivity; simpl; lia.
Defined.

(** X19: a state that decodes to something that is not a list (an object,
    a text, a number, [true], [false], [null]), or to a list whose first
    step has no "time", gives the empty runtime: what the [try] block raises
    is caught. *)
Theorem runtime_of_a_malformed_trace_is_empty (op : Operation.t) (job : Job.t)
    (time_json : json) :
  last (Operation.jobs op) = Some job ->
  Job.state job = Ok time_json ->
  (forall items, time_json <> JArr items)
  \/ (exists first rest e,
        time_json = JArr (first :: rest) /\ subscript_str first "time" = Raise e) ->
  findRuntime op = Ok (VStr "").
Proof.
  intros Hj Hs Hm. rewrite (findRuntime_of_trace op job _ Hj Hs).
  destruct Hm as [Hna | (first & rest & e & -> & He)].
  - unfold trace_stamps.
    destruct time_json as [| b | z | f | s | items | members]; try reflexivity.
    + unfold subscript_int.
      destruct (list_index (list_ascii_of_string s) 0); reflexivity.
    + exfalso. now apply (Hna items).
  - unfold trace_stamps, subscript_int.
    change (list_index (first :: rest) 0) with (Ok (A := json) first).
    cbn [bind]. rewrite He. reflexivity.
Qed.

Lemma runtime_of_a_malformed_trace_is_empty_witness :
  findRuntime
    (Sample.operation "done" 1 (Some 2) (JObj [("0", Sample.step (JInt 5))]) [])
  = Ok (VStr "").
Proof.
  apply (runtime_of_a_malformed_trace_is_empty _
           (Job.mk (Some 2) [7; 8] (Ok (JObj [("0", Sample.step (JInt 5))])))
           (JObj [("0", Sample.step (JInt 5))])).
  - reflexivity.
  - reflexivity.
  - left. intros items. discriminate.
Defined.

(** X20: a first stamp that is a text but no date in the expected format is
    not caught: what the parser raises leaves [findRuntime], and with the
    status "done" it leaves the "Runtime" rule of [findData]. *)
Theorem unparsable_stamp_raises (self : DAMPAqData.t) (op : Operation.t)
    (job : Job.t) (time_json : json) (s1 : string) (end_time : json) (e : exn) :
  last (Operation.jobs op) = Some job ->
  Job.state job = Ok time_json ->
  trace_stamps time_json = Ok (JStr s1, end_time) ->
  strptime.parse s1 = Raise e ->
  findRuntime op = Raise e
  /\ (row_so_far self "Status" = Ok (VStr "done") ->
      findData self op "Runtime" None = Raise e).
Proof.
  intros Hj Hs Ht Hp.
  assert (Hr : findRuntime op = Raise e).
  { rewrite (findRuntime_of_trace op job _ Hj Hs), Ht.
    unfold to_utc. rewrite Hp. reflexivity. }
  split; [ exact Hr | ].
  intros Hst. rule_of_key. rewrite Hst. cbn [bind eq_str].
  change (String.eqb "done" "done") with true. cbv iota. rewrite Hr. reflexivity.
Qed.

Lemma unparsable_stamp_raises_witness :
  findRuntime Fixture.op_marker_first = Raise ValueError.
Proof.
  apply (unparsable_stamp_raises
           (Sample.with_status ["Status"; "Runtime"] (VStr "done"))
           Fixture.op_marker_first
           (Job.mk (Some 2) [7; 8]
              (Ok (JArr [Sample.step (JStr "marker"); Sample.step (JStr "marker")])))
           (JArr [Sample.step (JStr "marker"); Sample.step (JStr "marker")])
           "marker" (JStr "marker") ValueError);
    reflexivity.
Defined.

(** ** The spreadsheet side *)

Lemma while_filled_stops_at_empty (column : list string) (rest : list string)
    (cells : list string) :
  forall (front : list string) (fuel : nat),
    column = front ++ cells ++ "" :: rest ->
    Forall filled cells ->
    (length cells < fuel)%nat ->
    while_filled fuel column (Z.of_nat (length front))
    = Some (Z.of_nat (length front + length cells), false).
Proof.
  induction cells as [| c cells IH]; intros front fuel Hc Hf Hfuel;
    (destruct fuel as [| fuel]; [ simpl in Hfuel; lia | ]); cbn [while_filled].
  - rewrite (list_index_nonneg column (length front) "").
    + cbn [String.eqb negb]. do 2 f_equal. simpl. lia.
    + rewrite Hc, nth_error_app2 by lia. now rewrite Nat.sub_diag.
  - apply Forall_cons_iff in Hf as [Hcf Hrest].
    rewrite (list_index_nonneg column (length front) c).
    + rewrite (proj2 (String.eqb_neq c "") Hcf). cbn [negb].
      replace (Z.of_nat (length front) + 1) with (Z.of_nat (length (front ++ [c])))
        by (rewrite length_app; simpl; lia).
      rewrite (IH (front ++ [c]) fuel).
      * rewrite length_app. simpl. do 2 f_equal. lia.
      * rewrite Hc, <- app_assoc. reflexivity.
      * assumption.
      * simpl in Hfuel. lia.
    + rewrite Hc, nth_error_app2 by lia. now rewrite Nat.sub_diag.
Qed.

Lemma while_filled_runs_off (column : list string) (cells : list string) :
  forall (front : list string) (fuel : nat),
    column = front ++ cells ->
    Forall filled cells ->
    (length cells < fuel)%nat ->
    while_filled fuel column (Z.of_nat (length front))
    = Some (Z.of_nat (length column), true).
Proof.
  induction cells as [| c cells IH]; intros front fuel Hc Hf Hfuel;
    (destruct fuel as [| fuel]; [ simpl in Hfuel; lia | ]); cbn [while_filled].
  - rewrite app_nil_r in Hc. rewrite Hc.
    unfold list_index.
    destruct (Z.ltb_spec (Z.of_nat (length front)) 0) as [Hn | _]; [ lia | ].
    destruct (Z.ltb_spec (Z.of_nat (length front)) 0) as [Hn | _]; [ lia | ].
    destruct (Z.leb_spec (Z.of_nat (length front)) (Z.of_nat (length front)))
      as [_ | Hn]; [ reflexivity | lia ].
  - apply Forall_cons_iff in Hf as [Hcf Hrest].
    rewrite (list_index_nonneg column (length front) c).
    + rewrite (proj2 (String.eqb_neq c "") Hcf). cbn [negb].
      replace (Z.of_nat (length front) + 1) with (Z.of_nat (length (front ++ [c])))
        by (rewrite length_app; simpl; lia).
      apply (IH (front ++ [c]) fuel).
      * rewrite Hc, <- app_assoc. reflexivity.
      * assumption.
      * simpl in Hfuel. lia.
    + rewrite Hc, nth_error_app2 by lia. now rewrite Nat.sub_diag.
Qed.

(** X21: when the first column has an empty cell, [findFirstEmptyRow]
    returns the number (counted from one) of the row of the first empty
    cell and leaves the worksheet as it is; for a column with no cell at all
    it returns 1. *)
Theorem findFirstEmptyRow_first_empty_cell (sheet : Worksheet.t)
    (cells rest : list string) :
  Forall filled cells ->
  (Worksheet.column1 sheet = cells ++ "" :: rest ->
   findFirstEmptyRow sheet = Some (Z.of_nat (length cells) + 1, sheet))
  /\ (Worksheet.column1 sheet = [] -> findFirstEmptyRow sheet = Some (1, sheet)).
Proof.
  intros Hf. split.
  - intros Hc. unfold findFirstEmptyRow.
    destruct (Worksheet.column1 sheet) as [| c0 col] eqn:E.
    + destruct cells; discriminate.
    + rewrite (while_filled_stops_at_empty (c0 :: col) rest cells [] _ Hc Hf).
      * reflexivity.
      * rewrite Hc, length_app. simpl. lia.
  - intros Hc. unfold findFirstEmptyRow. rewrite Hc. reflexivity.
Qed.

Lemma findFirstEmptyRow_first_empty_cell_witness :
  findFirstEmptyRow (Worksheet.mk ["Date"; "2018-01-01"; ""; "x"; ""] 5)
  = Some (3, Worksheet.mk ["Date"; "2018-01-01"; ""; "x"; ""] 5).
Proof.
  apply (proj1 (findFirstEmptyRow_first_empty_cell
                  (Worksheet.mk ["Date"; "2018-01-01"; ""; "x"; ""] 5)
                  ["Date"; "2018-01-01"] ["x"; ""]
                  ltac:(repeat constructor; discriminate))).
  reflexivity.
Defined.

(** X22: when the first column has cells and none of them is empty,
    [findFirstEmptyRow] adds one row to the worksheet and returns the number
    of cells of the column, which is the number of its last filled row. *)
Theorem findFirstEmptyRow_full_column (sheet : Worksheet.t) :
  Worksheet.column1 sheet <> [] ->
  Forall filled (Worksheet.column1 sheet) ->
  findFirstEmptyRow sheet
  = Some (Z.of_nat (length (Worksheet.column1 sheet)), Worksheet.add_rows sheet 1).
Proof.
  intros Hne Hf. unfold findFirstEmptyRow.
  destruct (Worksheet.column1 sheet) as [| c0 col] eqn:E; [ contradiction | ].
  rewrite (while_filled_runs_off (c0 :: col) (c0 :: col) [] _ eq_refl Hf);
    [ reflexivity | lia ].
Qed.

Lemma findFirstEmptyRow_full_column_witness :
  findFirstEmptyRow (Worksheet.mk ["Date"; "2018-01-01"] 2)
  = Some (2, Worksheet.mk ["Date"; "2018-01-01"] 3).
Proof.
  apply (findFirstEmptyRow_full_column (Worksheet.mk ["Date"; "2018-01-01"] 2)).
  - discriminate.
  - repeat constructor; discriminate.
Defined.

Lemma column_shape (column : list string) :
  Forall filled column
  \/ exists cells rest, column = cells ++ "" :: rest /\ Forall filled cells.
Proof.
  induction column as [| c column IH].
  - left. constructor.
  - destruct (string_dec c "") as [-> | Hc].
    + right. exists [], column. split; [ reflexivity | constructor ].
    + destruct IH as [Hall | (cells & rest & -> & Hcells)].
      * left. now constructor.
      * right. exists (c :: cells), rest. split; [ reflexivity | now constructor ].
Qed.

(** X23: [findFirstEmptyRow] returns for every worksheet (the loop ends
    within the turns it is given), with a row number from 1 to one more
    than the number of cells of the first column, and it adds at most one
    row. *)
Theorem findFirstEmptyRow_returns (sheet : Worksheet.t) :
  exists row sheet',
    findFirstEmptyRow sheet = Some (row, sheet')
    /\ 1 <= row <= Z.of_nat (length (Worksheet.column1 sheet)) + 1
    /\ (sheet' = sheet \/ sheet' = Worksheet.add_rows sheet 1).
Proof.
  destruct (column_shape (Worksheet.column1 sheet))
    as [Hall | (cells & rest & Hc & Hcells)].
  - destruct (Worksheet.column1 sheet) as [| c0 col] eqn:E.
    + exists 1, sheet. split; [ | split; [ simpl; lia | now left ] ].
      unfold findFirstEmptyRow. rewrite E. reflexivity.
    + exists (Z.of_nat (length (c0 :: col))), (Worksheet.add_rows sheet 1).
      split; [ | split; [ simpl; lia | now right ] ].
      unfold findFirstEmptyRow. rewrite E.
      rewrite (while_filled_runs_off (c0 :: col) (c0 :: col) [] _ eq_refl Hall);
        [ reflexivity | lia ].
  - exists (Z.of_nat (length cells) + 1), sheet.
    split; [ | split; [ rewrite Hc, length_app; simpl; lia | now left ] ].
    unfold findFirstEmptyRow.
    destruct (Worksheet.column1 sheet) as [| c0 col] eqn:E.
    + destruct cells; discriminate.
    + rewrite (while_filled_stops_at_empty (c0 :: col) rest cells [] _ Hc Hcells).
      * reflexivity.
      * rewrite Hc, length_app. simpl. lia.
Qed.

Lemma worksheet_by_title_found (spreadsheet : list string) (title : string) :
  In title spreadsheet -> exists t, worksheet_by_title spreadsheet title = Some t.
Proof.
  unfold worksheet_by_title. intros H.
  destruct (List.find (String.eqb title) spreadsheet) as [t |] eqn:E; [ eauto | ].
  exfalso. apply (find_none _ _ E) in H. now rewrite String.eqb_refl in H.
Qed.

Lemma worksheet_by_title_missing (spreadsheet : list string) (title : string) :
  ~ In title spreadsheet -> worksheet_by_title spreadsheet title = None.
Proof.
  unfold worksheet_by_title. intros H.
  destruct (List.find (String.eqb title) spreadsheet) as [t |] eqn:E; [ | reflexivity ].
  apply find_some in E as [Hin Heq]. apply String.eqb_eq in Heq. subst t. contradiction.
Qed.

Lemma createSheets_adds (protocols : list string) :
  forall spreadsheet : list string,
    exists added,
      fold_left
        (fun spreadsheet protocol =>
           match worksheet_by_title spreadsheet protocol with
           | Some _ => spreadsheet
           | None => add_worksheet spreadsheet protocol
           end)
        protocols spreadsheet
      = spreadsheet ++ added
      /\ (forall p, In p protocols -> In p (spreadsheet ++ added))
      /\ (forall t, In t added -> In t protocols /\ ~ In t spreadsheet)
      /\ List.NoDup added.
Proof.
  induction protocols as [| p ps IH]; intros spreadsheet; cbn [fold_left].
  - exists []. rewrite app_nil_r. split; [ reflexivity | ].
    split; [ intros p [] | ]. split; [ intros t [] | constructor ].
  - destruct (in_dec string_dec p spreadsheet) as [Hin | Hout].
    + destruct (worksheet_by_title_found _ _ Hin) as [t ->].
      destruct (IH spreadsheet) as (added & E & Hall & Hnew & Hnd).
      exists added. split; [ exact E | ]. split; [ | split; [ | exact Hnd ] ].
      * intros q [<- | Hq]; [ apply in_or_app; now left | now apply Hall ].
      * intros t' Ht'. destruct (Hnew t' Ht') as [H1 H2]. split; [ now right | exact H2 ].
    + rewrite (worksheet_by_title_missing _ _ Hout).
      change (add_worksheet spreadsheet p) with (spreadsheet ++ [p]).
      destruct (IH (spreadsheet ++ [p])) as (added & E & Hall & Hnew & Hnd).
      exists (p :: added). rewrite E, <- app_assoc. simpl.
      split; [ reflexivity | ]. split; [ | split ].
      * intros q [<- | Hq].
        -- apply in_or_app. right. now left.
        -- specialize (Hall q Hq). rewrite <- app_assoc in Hall. exact Hall.
      * intros t' [<- | Ht'].
        -- split; [ now left | exact Hout ].
        -- destruct (Hnew t' Ht') as [H1 H2]. split; [ now right | ].
           intros H. apply H2, in_or_app. now left.
      * constructor; [ | exact Hnd ].
        intros H. destruct (Hnew p H) as [_ H2]. apply H2, in_or_app. right. now left.
Qed.

(** X24: [createSheets] keeps the worksheets of the spreadsheet, in their
    order, and adds after them one worksheet for each configured protocol
    that had none, and no other: afterwards every protocol has a worksheet,
    and no title was added twice, even for a protocol listed twice. *)
Theorem createSheets_adds_the_missing (self : DAMPAqData.t) (spreadsheet : list string) :
  exists added,
    createSheets self spreadsheet = spreadsheet ++ added
    /\ (forall p, In p (PROTOCOLS self) -> In p (createSheets self spreadsheet))
    /\ (forall t, In t added -> In t (PROTOCOLS self) /\ ~ In t spreadsheet)
    /\ List.NoDup added.
Proof.
  unfold createSheets.
  destruct (createSheets_adds (PROTOCOLS self) spreadsheet)
    as (added & E & Hall & Hnew & Hnd).
  exists added. rewrite E. repeat split; try assumption; now apply Hnew.
Qed.

Lemma createSheets_nothing_missing (protocols : list string) :
  forall spreadsheet : list string,
    (forall p, In p protocols -> In p spreadsheet) ->
    fold_left
      (fun spreadsheet protocol =>
         match worksheet_by_title spreadsheet protocol with
         | Some _ => spreadsheet
         | None => add_worksheet spreadsheet protocol
         end)
      protocols spreadsheet
    = spreadsheet.
Proof.
  induction protocols as [| p ps IH]; intros spreadsheet H; cbn [fold_left];
    [ reflexivity | ].
  destruct (worksheet_by_title_found spreadsheet p (H p (or_introl eq_refl))) as [t ->].
  apply IH. intros q Hq. apply H. now right.
Qed.

(** X25: [createSheets] changes nothing when every protocol has its
    worksheet, so calling it a second time changes nothing. *)
Theorem createSheets_idempotent (self : DAMPAqData.t) (spreadsheet : list string) :
  ((forall p, In p (PROTOCOLS self) -> In p spreadsheet) ->
   createSheets self spreadsheet = spreadsheet)
  /\ createSheets self (createSheets self spreadsheet) = createSheets self spreadsheet.
Proof.
  split.
  - apply createSheets_nothing_missing.
  - unfold createSheets at 1. apply createSheets_nothing_missing.
    intros p Hp.
    destruct (createSheets_adds (PROTOCOLS self) spreadsheet) as (added & E & Hall & _).
    unfold createSheets. rewrite E. now apply Hall.
Qed.

Lemma createSheets_idempotent_witness :
  createSheets (Sample.instance []) ["Check Plate"; "Notes"] = ["Check Plate"; "Notes"].
Proof.
  apply (proj1 (createSheets_idempotent (Sample.instance []) ["Check Plate"; "Notes"])).
  simpl. intros p [<- | []]. now left.
Defined.

(** ** How the steps of a run fit together *)

Lemma Forall2_In_r {A B : Type} (P : A -> B -> Prop) (l : list A) (k : list B) (y : B) :
  Forall2 P l k -> In y k -> exists x, In x l /\ P x y.
Proof.
  induction 1 as [| x y' l k Hxy _ IH]; intros Hin; [ destruct Hin | ].
  destruct Hin as [<- | Hin].
  - exists x. split; [ now left | assumption ].
  - destruct (IH Hin) as (x' & Hx' & HP). exists x'. split; [ now right | assumption ].
Qed.

(** X26: every protocol key that [findKeys] has resolved is found again by
    [collectOperations], which therefore does not raise in a run: it returns
    the operations that pass the filter, of the first operation type of the
    store with that key. *)
Theorem resolved_keys_are_found (self self' : DAMPAqData.t) (time p : Z) :
  findKeys self = Ok self' ->
  In p (PROTOCOL_KEYS self') ->
  exists ot,
    AqSession.OperationType_find (session self') p = Some ot
    /\ collectOperations self' p time
       = Ok (List.filter (matches self') (OperationType.operations ot)).
Proof.
  intros Hk Hp. apply findKeys_keys in Hk as (_ & Hf & E).
  assert (Hs : session self' = session self) by (rewrite E; reflexivity).
  destruct (Forall2_In_r _ _ _ _ Hf Hp) as (name & _ & Hr).
  unfold resolve_protocol in Hr.
  destruct (last (AqSession.OperationType_where (session self) name)) as [ot0 |] eqn:El;
    [ | discriminate ].
  simpl in Hr. injection Hr as Hid.
  apply last_Some_elem_of, list_elem_of_In in El.
  unfold AqSession.OperationType_where in El. apply filter_In in El as [Hin _].
  unfold collectOperations, AqSession.OperationType_find. rewrite Hs.
  destruct (List.find (fun ot => OperationType.id ot =? p)
              (AqSession.operation_types (session self))) as [ot |] eqn:Ef.
  - exists ot. split; [ reflexivity | ]. cbn [attr bind].
    apply generate_filter. intros op _. apply is_collected_matches.
  - exfalso. apply (find_none _ _ Ef) in Hin. simpl in Hin.
    rewrite Hid, Z.eqb_refl in Hin. discriminate.
Qed.

Lemma resolved_keys_are_found_witness :
  exists ot,
    AqSession.OperationType_find
      (session (set_keys (Sample.instance []) [1] [5])) 5 = Some ot
    /\ collectOperations (set_keys (Sample.instance []) [1] [5]) 5 14
       = Ok (List.filter (matches (set_keys (Sample.instance []) [1] [5]))
               (OperationType.operations ot)).
Proof.
  apply (resolved_keys_are_found (Sample.instance [])
           (set_keys (Sample.instance []) [1] [5]) 14 5).
  - reflexivity.
  - simpl. auto.
Defined.

(** X27: the rules that read the status of the row, other than "Error
    Message", do not catch a failing read: they raise [KeyError] when
    "Status" is no field of the accumulator, and [IndexError] when it is one
    that has no value yet (the first record of a protocol, with "Status"
    listed after the field). *)
Theorem unreadable_status_raises (self : DAMPAqData.t) (op : Operation.t)
    (key : string) :
  In key [ "Runtime"; "Hands-off Time"; "Hands-on Time"; "Hands-on Time/Job";
           "Cost/Minute (Total)"; "Cost/Minute (Hands-on)" ] ->
  (op_data self !! "Status" = None -> findData self op key None = Raise KeyError)
  /\ (op_data self !! "Status" = Some [] -> findData self op key None = Raise IndexError).
Proof.
  intros Hk.
  assert (H : forall e, row_so_far self "Status" = Raise e ->
                        findData self op key None = Raise e).
  { intros e He.
    assert (Hg : done_with_runtime self = Raise e)
      by (unfold done_with_runtime; rewrite He; reflexivity).
    simpl in Hk.
    destruct Hk as [<- | [<- | [<- | [<- | [<- | [<- | []]]]]]];
      rule_of_key; rewrite ?He, ?Hg; reflexivity. }
  split; intros Hs; apply H; unfold row_so_far; rewrite Hs; reflexivity.
Qed.

Lemma unreadable_status_raises_witness :
  findData (Sample.ready ["Hands-off Time"; "Status"]) Sample.op_done
    "Hands-off Time" None
  = Raise IndexError.
Proof.
  apply (proj2 (unreadable_status_raises (Sample.ready ["Hands-off Time"; "Status"])
                  Sample.op_done "Hands-off Time" ltac:(simpl; auto))).
  reflexivity.
Defined.
